(** * Facility structure listing (level - room - asset)

    A shallow embedding of [src/facility/list-facility-structure.js] and of
    the part of [src/common/tandemClient.js] it calls.

    Modelling conventions.
    - A JavaScript value that is either a string or [undefined] is an
      [option string]; [None] is [undefined].
    - A plain JavaScript object used as a map is an association list in
      insertion order: reading a missing property gives [undefined], writing
      an existing property keeps its position, writing a new one appends
      (the enumeration order of [for ... in] for keys that are not
      array indices).  The property names written and read are keys the
      codec of [common/utils.js] produces, or [undefined]; none of them
      is taken to be a name that [Object.prototype] carries, so inherited
      properties are not modelled.
    - A JavaScript [Set] is the list of its members in insertion order.
    - [common/utils.js] ([Encoding], [QC], [ColumnFamilies]) is not part of
      the sources at hand: its constants and functions are the fields of
      the record [Utils], a parameter of everything below.
    - The remote service is a function from requests to responses (one
      snapshot per run); every request the program sends is appended to a
      trace. *)

From Stdlib Require Import String Ascii List Bool Arith Lia.
Import ListNotations.
Local Open Scope string_scope.
Local Open Scope list_scope.

Set Implicit Arguments.

(** ** JavaScript values and objects *)

Module JS.

(** A string or [undefined]. *)
Definition value : Type := option string.

Definition value_eqb (a b : value) : bool :=
  match a, b with
  | None, None => true
  | Some x, Some y => String.eqb x y
  | _, _ => false
  end.

(** [if (v)] for a string or [undefined]: the empty string and
    [undefined] are falsy. *)
Definition truthy (v : value) : bool :=
  match v with
  | None => false
  | Some s => negb (String.eqb s "")
  end.

(** Conversion of a value used as a property name. *)
Definition prop_key (v : value) : string :=
  match v with
  | None => "undefined"
  | Some s => s
  end.

(** [s.replace(pat, rep)] with a string pattern: the first occurrence
    only. *)
Fixpoint replace (pat rep s : string) : string :=
  if String.prefix pat s
  then rep ++ String.substring (String.length pat)
                (String.length s - String.length pat) s
  else match s with
       | EmptyString => EmptyString
       | String c s' => String c (replace pat rep s')
       end.

(** [s.includes(pat)] *)
Fixpoint includes (pat s : string) : bool :=
  if String.prefix pat s then true
  else match s with
       | EmptyString => false
       | String _ s' => includes pat s'
       end.

(** An object used as a map from property names to [V]. *)
Definition obj (V : Type) : Type := list (string * V).

Fixpoint get {V} (o : obj V) (k : string) : option V :=
  match o with
  | [] => None
  | (k', v) :: o' => if String.eqb k' k then Some v else get o' k
  end.

Fixpoint set {V} (o : obj V) (k : string) (v : V) : obj V :=
  match o with
  | [] => [(k, v)]
  | (k', v') :: o' =>
      if String.eqb k' k then (k', v) :: o' else (k', v') :: set o' k v
  end.

Definition keys {V} (o : obj V) : list string := map fst o.

(** [new Set(l)]: members in order of first insertion. *)
Section SetOf.
Variable A : Type.
Variable eqb : A -> A -> bool.

(** [s.add(v)] *)
Definition set_add (s : list A) (v : A) : list A :=
  if existsb (eqb v) s then s else s ++ [v].

Definition new_Set (l : list A) : list A :=
  fold_left set_add l [].

End SetOf.

(** The outcome of running code that may throw. *)
Inductive error : Type :=
| TypeError (msg : string).

Inductive result (A : Type) : Type :=
| Ok (a : A)
| Throw (e : error).
Arguments Ok {A} a.
Arguments Throw {A} e.

End JS.

(** An element of a model: the object the scan returns for it, its
    properties named by column-family-qualified names. *)
Definition Element : Type := JS.obj string.

(** ** [common/utils.js], taken as a parameter *)

Record Utils : Type := {
  QC_Key : string;
  QC_Name : string;
  QC_Rooms : string;
  QC_XRooms : string;
  QC_Level : string;
  CF_Standard : string;
  CF_DtProperties : string;
  CF_Refs : string;
  CF_Xrefs : string;
  (** [Encoding.toFullKey(key)] *)
  toFullKey : JS.value -> string;
  (** [Encoding.fromShortKeyArray(text)] *)
  fromShortKeyArray : JS.value -> list string;
  (** [Encoding.fromXrefKeyArray(text)]: the array of model ids and the
      array of element keys. *)
  fromXrefKeyArray : JS.value -> list string * list string
}.

(** ** The remote service and [common/tandemClient.js] *)

Module Facility.

(** An entry of [facility.links]. *)
Record Link : Type := { modelId : string }.

(** The object [getFacility] returns, as far as the program reads it. *)
Record t : Type := { links : list Link }.

End Facility.

(** The body of a scan request: [families] and, when the caller gave
    keys, [keys]; [includeHistory] is always [false] and [skipArrays]
    always [true]. *)
Record ScanInputs : Type := {
  families : list string;
  keys : option (list JS.value)
}.

Inductive Request : Type :=
| GetTwin (facilityId : string)
| PostScan (urn : string) (inputs : ScanInputs).

(** What the service answers to each request. *)
Record Backend : Type := {
  twin : string -> Facility.t;
  scan : string -> ScanInputs -> list Element
}.

Module TandemClient.
Section Client.
Variable U : Utils.
Variable be : Backend.

Definition getElements_request (urn : string) (ks : list JS.value)
    (columnFamilies : list string) : Request :=
  PostScan urn {| families := columnFamilies; keys := Some ks |}.

(** [getElements(urn, keys, columnFamilies)], called with an array of
    keys (an array is truthy, so [inputs.keys] is always set). *)
Definition getElements (urn : string) (ks : list JS.value)
    (columnFamilies : list string) : list Element :=
  scan be urn {| families := columnFamilies; keys := Some ks |}.

(** The default of the [columnFamilies] parameter of [getElements]. *)
Definition getElements_default : list string := [CF_Standard U].

Definition getFacility_request (facilityId : string) : Request :=
  GetTwin facilityId.

Definition getFacility (facilityId : string) : Facility.t :=
  twin be facilityId.

Definition getTaggedAssets_request (urn : string)
    (columnFamilies : list string) : Request :=
  PostScan urn {| families := columnFamilies; keys := None |}.

(** [userProps.length > 0]: some property name of the item starts with
    the custom-property family followed by a colon. *)
Definition has_userProps (item : Element) : bool :=
  negb (Nat.eqb
    (length (filter (fun k => String.prefix (CF_DtProperties U ++ ":") k)
                    (JS.keys item))) 0).

Definition getTaggedAssets (urn : string) (columnFamilies : list string)
    : list Element :=
  filter has_userProps
    (scan be urn {| families := columnFamilies; keys := None |}).

End Client.
End TandemClient.

(** ** [facility/list-facility-structure.js] *)

(** An entry of [assetRooms] and of [modelRooms]: the object
    [{ modelId, roomId }].  [roomId] is [undefined] when it was read past
    the end of the array of element keys. *)
Record RoomRef : Type := {
  modelId : string;
  roomId : JS.value
}.

(** The object [data]. *)
Record Data : Type := {
  levels : JS.obj Element;
  rooms : JS.obj Element;
  assets : JS.obj Element;
  roomAssetsMap : JS.obj (list string);
  roomLevelMap : JS.obj string
}.

Definition empty_data : Data :=
  {| levels := []; rooms := []; assets := [];
     roomAssetsMap := []; roomLevelMap := [] |}.

Definition set_levels (d : Data) (v : JS.obj Element) : Data :=
  {| levels := v; rooms := rooms d; assets := assets d;
     roomAssetsMap := roomAssetsMap d; roomLevelMap := roomLevelMap d |}.

Definition set_rooms (d : Data) (v : JS.obj Element) : Data :=
  {| levels := levels d; rooms := v; assets := assets d;
     roomAssetsMap := roomAssetsMap d; roomLevelMap := roomLevelMap d |}.

Definition set_assets (d : Data) (v : JS.obj Element) : Data :=
  {| levels := levels d; rooms := rooms d; assets := v;
     roomAssetsMap := roomAssetsMap d; roomLevelMap := roomLevelMap d |}.

Definition set_roomAssetsMap (d : Data) (v : JS.obj (list string)) : Data :=
  {| levels := levels d; rooms := rooms d; assets := assets d;
     roomAssetsMap := v; roomLevelMap := roomLevelMap d |}.

Definition set_roomLevelMap (d : Data) (v : JS.obj string) : Data :=
  {| levels := levels d; rooms := rooms d; assets := assets d;
     roomAssetsMap := roomAssetsMap d; roomLevelMap := v |}.

(** What the first loop of [main] has built so far: [data], the array
    [modelRooms] and the requests sent. *)
Record Env : Type := {
  data : Data;
  modelRooms : list RoomRef;
  trace : list Request
}.

(** [isDefaultModel(facilityId, modelId)] *)
Definition isDefaultModel (facilityId modelId : string) : bool :=
  let defaultModelId :=
    JS.replace "urn:adsk.dtt:" "urn:adsk.dtm:" facilityId in
  String.eqb defaultModelId modelId.

Section Main.
Variable U : Utils.
Variable be : Backend.
(** The constant [FACILITY_URN] at the head of the file, to be set by
    whoever runs the example. *)
Variable FACILITY_URN : string.

Definition asset_families : list string :=
  [CF_Standard U; CF_DtProperties U; CF_Refs U; CF_Xrefs U].

Definition room_families : list string :=
  [CF_Standard U; CF_Refs U].

(** STEP 4: the array [assetRooms] of one asset scanned from [modelId]. *)
Definition assetRooms (modelId : string) (asset : Element)
    : list RoomRef :=
  let roomRef := JS.get asset (QC_Rooms U) in
  if JS.truthy roomRef then
    let roomKeys := fromShortKeyArray U roomRef in
    map (fun roomKey =>
           {| modelId := modelId;
              roomId := Some (toFullKey U (Some roomKey)) |})
        roomKeys
  else
    let roomRef := JS.get asset (QC_XRooms U) in
    let roomKeys := fromXrefKeyArray U roomRef in
    let modelIds := fst roomKeys in
    let elementKeys := snd roomKeys in
    map (fun i =>
           {| modelId := "urn:adsk.dtm:" ++ nth i modelIds "";
              roomId := nth_error elementKeys i |})
        (seq 0 (length modelIds)).

(** STEP 5, the body of the loop over [assetRooms]. *)
Definition link_room (assetKey : string) (m : JS.obj (list string))
    (r : RoomRef) : JS.obj (list string) :=
  let roomKey := JS.prop_key (roomId r) in
  let assetIds :=
    match JS.get m roomKey with
    | Some ids => ids
    | None => []
    end in
  JS.set m roomKey (assetIds ++ [assetKey]).

(** The body of the loop over the assets of one model. *)
Definition step_asset (modelId : string) (st : Env) (asset : Element)
    : Env :=
  let assetKey := toFullKey U (JS.get asset (QC_Key U)) in
  let d1 := set_assets (data st) (JS.set (assets (data st)) assetKey asset) in
  let rs := assetRooms modelId asset in
  let d2 :=
    set_roomAssetsMap d1
      (fold_left (link_room assetKey) rs (roomAssetsMap d1)) in
  {| data := d2; modelRooms := modelRooms st ++ rs; trace := trace st |}.

(** STEP 3, the body of the loop over [facility.links]. *)
Definition step_link (st : Env) (link : Facility.Link) : Env :=
  if isDefaultModel FACILITY_URN (Facility.modelId link) then st
  else
    let found :=
      TandemClient.getTaggedAssets U be (Facility.modelId link)
        asset_families in
    let modelId := Facility.modelId link in
    fold_left (step_asset modelId) found
      {| data := data st;
         modelRooms := modelRooms st;
         trace := trace st ++
           [TandemClient.getTaggedAssets_request (Facility.modelId link)
              asset_families] |}.

(** STEP 3 to STEP 5: the loop over [facility.links]. *)
Definition collect (st : Env) (facility : Facility.t) : Env :=
  fold_left step_link (Facility.links facility) st.

(** STEP 6, the body of the loop over the rooms one model returned. *)
Definition step_room (acc : Data * list JS.value) (room : Element)
    : Data * list JS.value :=
  let roomKey := toFullKey U (JS.get room (QC_Key U)) in
  let d1 := set_rooms (fst acc) (JS.set (rooms (fst acc)) roomKey room) in
  let levelRef := JS.get room (QC_Level U) in
  if JS.truthy levelRef then
    (set_roomLevelMap d1
       (JS.set (roomLevelMap d1) roomKey (toFullKey U levelRef)),
     JS.set_add JS.value_eqb (snd acc) levelRef)
  else (d1, snd acc).

Definition step_level (d : Data) (level : Element) : Data :=
  let levelKey := toFullKey U (JS.get level (QC_Key U)) in
  set_levels d (JS.set (levels d) levelKey level).

(** The set [roomIds] of one model. *)
Definition roomIds_of (pending : list RoomRef) (m : string)
    : list JS.value :=
  JS.new_Set JS.value_eqb
    (map roomId (filter (fun i => String.eqb (modelId i) m) pending)).

(** STEP 6, the body of the loop over [modelIds]. *)
Definition step_model (pending : list RoomRef)
    (st : Data * list Request) (m : string) : Data * list Request :=
  let roomIds := roomIds_of pending m in
  let found := TandemClient.getElements be m roomIds room_families in
  let tr1 :=
    snd st ++ [TandemClient.getElements_request m roomIds room_families] in
  let acc := fold_left step_room found (fst st, []) in
  let levelIds := snd acc in
  if Nat.ltb 0 (length levelIds) then
    let fetched :=
      TandemClient.getElements be m levelIds
        (TandemClient.getElements_default U) in
    (fold_left step_level fetched (fst acc),
     tr1 ++ [TandemClient.getElements_request m levelIds
               (TandemClient.getElements_default U)])
  else (fst acc, tr1).

(** The set [modelIds] of STEP 6. *)
Definition modelIds_of (pending : list RoomRef) : list string :=
  JS.new_Set String.eqb (map modelId pending).

(** STEP 6: the loop over [modelIds]. *)
Definition resolve (st : Env) : Data * list Request :=
  fold_left (step_model (modelRooms st)) (modelIds_of (modelRooms st))
    (data st, trace st).

(** [main] from STEP 2 to the end of STEP 6: the structure [data] it has
    built and the requests it has sent, oldest first. *)
Definition main : Data * list Request :=
  let facility := TandemClient.getFacility be FACILITY_URN in
  let st0 :=
    {| data := empty_data; modelRooms := [];
       trace := [TandemClient.getFacility_request FACILITY_URN] |} in
  resolve (collect st0 facility).

End Main.

(** STEP 7: the three generators, each as the list of what it yields. *)

Definition getLevels (data : Data) : list (string * option Element) :=
  map (fun levelKey => (levelKey, JS.get (levels data) levelKey))
      (JS.keys (levels data)).

Definition getRoomsByLevel (data : Data) (levelKey : JS.value)
    : list (string * option Element) :=
  flat_map
    (fun roomKey =>
       if negb (JS.value_eqb (JS.get (roomLevelMap data) roomKey) levelKey)
       then []
       else [(roomKey, JS.get (rooms data) roomKey)])
    (JS.keys (rooms data)).

(** Iterating over [undefined] throws when the generator is first
    advanced. *)
Definition getAssetsByRoom (data : Data) (roomKey : JS.value)
    : JS.result (list (string * option Element)) :=
  match JS.get (roomAssetsMap data) (JS.prop_key roomKey) with
  | None => JS.Throw (JS.TypeError "assetKeys is not iterable")
  | Some assetKeys =>
      JS.Ok (map (fun assetKey => (assetKey, JS.get (assets data) assetKey))
                 assetKeys)
  end.


(** STEP 7: the lines [console.debug] writes, and the error that ends the
    traversal, if any.  A template literal writes [undefined] for a
    missing name; reading a property of [undefined] throws. *)

Section Listing.
Variable U : Utils.

(** A loop that writes lines and stops at the first error. *)
Fixpoint for_each {X : Type} (body : X -> list string * option JS.error)
    (l : list X) : list string * option JS.error :=
  match l with
  | [] => ([], None)
  | x :: l' =>
      match body x with
      | (out, Some e) => (out, Some e)
      | (out, None) =>
          (out ++ fst (for_each body l'), snd (for_each body l'))
      end
  end.

Definition name_of (element : option Element) (indent : string)
    : list string * option JS.error :=
  match element with
  | None =>
      ([], Some (JS.TypeError "Cannot read properties of undefined"))
  | Some e =>
      ([(indent ++ JS.prop_key (JS.get e (QC_Name U)))%string], None)
  end.

Definition list_assets (data : Data) (roomKey : string)
    : list string * option JS.error :=
  match getAssetsByRoom data (Some roomKey) with
  | JS.Throw e => ([], Some e)
  | JS.Ok found => for_each (fun ka => name_of (snd ka) "    ") found
  end.

Definition list_rooms (data : Data) (levelKey : string)
    : list string * option JS.error :=
  for_each
    (fun kr =>
       match name_of (snd kr) "  " with
       | (out, Some e) => (out, Some e)
       | (out, None) =>
           (out ++ fst (list_assets data (fst kr)),
            snd (list_assets data (fst kr)))
       end)
    (getRoomsByLevel data (Some levelKey)).

Definition listing (data : Data) : list string * option JS.error :=
  match
    for_each
      (fun kl =>
         match name_of (snd kl) "" with
         | (out, Some e) => (out, Some e)
         | (out, None) =>
             (out ++ fst (list_rooms data (fst kl)),
              snd (list_rooms data (fst kl)))
         end)
      (getLevels data)
  with
  | (out, e) => ("facility data list" :: out, e)
  end.

(** The exit code: [0] after [success], [1] after [failure]. *)
Definition exit_code (data : Data) : nat :=
  match snd (listing data) with
  | None => 0
  | Some _ => 1
  end.

End Listing.

(** ** What the two passes amount to

    Closed forms of the loops of [main], used to state and prove the
    properties below; the lemmas of [PassFacts] show that the loops
    compute them. *)

Section Views.
Variable U : Utils.
Variable be : Backend.
Variable FACILITY_URN : string.

Definition assetKey_of (asset : Element) : string :=
  toFullKey U (JS.get asset (QC_Key U)).

(** The links STEP 3 does not skip. *)
Definition scanned_links (facility : Facility.t) : list Facility.Link :=
  filter (fun link =>
            negb (isDefaultModel FACILITY_URN (Facility.modelId link)))
         (Facility.links facility).

(** The assets STEP 3 goes through, each with the model it was scanned
    from, in the order of the scan. *)
Definition scanned (facility : Facility.t) : list (string * Element) :=
  flat_map
    (fun link =>
       map (pair (Facility.modelId link))
           (TandemClient.getTaggedAssets U be (Facility.modelId link)
              (asset_families U)))
    (scanned_links facility).

Definition asset_requests (facility : Facility.t) : list Request :=
  map (fun link =>
         TandemClient.getTaggedAssets_request (Facility.modelId link)
           (asset_families U))
      (scanned_links facility).

(** All entries pushed to [modelRooms] for a list of scanned assets. *)
Definition pending (l : list (string * Element)) : list RoomRef :=
  flat_map (fun ma => assetRooms U (fst ma) (snd ma)) l.

(** The pairs (property name of the room, asset key) STEP 5 records, in
    order. *)
Definition edges_of (ma : string * Element) : list (string * string) :=
  map (fun r => (JS.prop_key (roomId r), assetKey_of (snd ma)))
      (assetRooms U (fst ma) (snd ma)).

Definition edges (l : list (string * Element)) : list (string * string) :=
  flat_map edges_of l.

Definition add_edge (m : JS.obj (list string)) (e : string * string)
    : JS.obj (list string) :=
  JS.set m (fst e)
    (match JS.get m (fst e) with
     | Some ids => ids
     | None => []
     end ++ [snd e]).

(** The asset keys recorded for the room property [r], oldest first. *)
Definition discovered (r : string) (es : list (string * string))
    : list string :=
  map snd (filter (fun e => String.eqb (fst e) r) es).

Definition asset_set (o : JS.obj Element) (ma : string * Element)
    : JS.obj Element :=
  JS.set o (assetKey_of (snd ma)) (snd ma).

Definition after_scan (st : Env) (l : list (string * Element)) : Env :=
  {| data :=
       {| levels := levels (data st);
          rooms := rooms (data st);
          assets := fold_left asset_set l (assets (data st));
          roomAssetsMap :=
            fold_left add_edge (edges l) (roomAssetsMap (data st));
          roomLevelMap := roomLevelMap (data st) |};
     modelRooms := modelRooms st ++ pending l;
     trace := trace st |}.

(** The rooms the service returns for model [m] in STEP 6. *)
Definition rooms_of (p : list RoomRef) (m : string) : list Element :=
  TandemClient.getElements be m (roomIds_of p m) (room_families U).

Definition room_request (p : list RoomRef) (m : string) : Request :=
  TandemClient.getElements_request m (roomIds_of p m) (room_families U).

Definition levelRef_of (room : Element) : JS.value :=
  JS.get room (QC_Level U).

(** The set [levelIds] after the rooms [found] of one model. *)
Definition levelIds_of (found : list Element) : list JS.value :=
  JS.new_Set JS.value_eqb (filter JS.truthy (map levelRef_of found)).

Definition level_request (p : list RoomRef) (m : string) : Request :=
  TandemClient.getElements_request m (levelIds_of (rooms_of p m))
    (TandemClient.getElements_default U).

(** The levels fetched for model [m]: none when [levelIds] is empty. *)
Definition levels_of (p : list RoomRef) (m : string) : list Element :=
  if Nat.ltb 0 (length (levelIds_of (rooms_of p m))) then
    TandemClient.getElements be m (levelIds_of (rooms_of p m))
      (TandemClient.getElements_default U)
  else [].

(** The requests STEP 6 sends for model [m]. *)
Definition requests_of (p : list RoomRef) (m : string) : list Request :=
  room_request p m ::
  (if Nat.ltb 0 (length (levelIds_of (rooms_of p m)))
   then [level_request p m] else []).

Definition room_set (o : JS.obj Element) (room : Element)
    : JS.obj Element :=
  JS.set o (assetKey_of room) room.

Definition level_link (o : JS.obj string) (room : Element)
    : JS.obj string :=
  if JS.truthy (levelRef_of room)
  then JS.set o (assetKey_of room) (toFullKey U (levelRef_of room))
  else o.

Definition after_rooms (d : Data) (found : list Element) : Data :=
  {| levels := levels d;
     rooms := fold_left room_set found (rooms d);
     assets := assets d;
     roomAssetsMap := roomAssetsMap d;
     roomLevelMap := fold_left level_link found (roomLevelMap d) |}.

Definition after_models (p : list RoomRef) (d : Data) (ms : list string)
    : Data :=
  {| levels := fold_left room_set (flat_map (levels_of p) ms) (levels d);
     rooms := fold_left room_set (flat_map (rooms_of p) ms) (rooms d);
     assets := assets d;
     roomAssetsMap := roomAssetsMap d;
     roomLevelMap :=
       fold_left level_link (flat_map (rooms_of p) ms) (roomLevelMap d) |}.

(** The property names of the rooms one asset refers to, each once: the
    room ids, as STEP 5 uses them, the model ids left out. *)
Definition named_rooms (m : string) (asset : Element) : list string :=
  JS.new_Set String.eqb
    (map (fun r => JS.prop_key (roomId r)) (assetRooms U m asset)).

(** A request for rooms: a scan with keys for the families STEP 6 asks
    for rooms. *)
Definition is_room_request (q : Request) : bool :=
  match q with
  | GetTwin _ => false
  | PostScan _ inputs =>
      match keys inputs with
      | None => false
      | Some _ =>
          if list_eq_dec string_dec (families inputs) (room_families U)
          then true else false
      end
  end.

(** A request for levels: a scan with keys for the default families of
    [getElements]. *)
Definition is_level_request (q : Request) : bool :=
  match q with
  | GetTwin _ => false
  | PostScan _ inputs =>
      match keys inputs with
      | None => false
      | Some _ =>
          if list_eq_dec string_dec (families inputs)
               (TandemClient.getElements_default U)
          then true else false
      end
  end.

Definition request_urn (q : Request) : string :=
  match q with
  | GetTwin facilityId => facilityId
  | PostScan urn _ => urn
  end.

End Views.

(** ** The level reference as the specification words it

    The specification gives levels the handling of rooms: the reference
    within the model first, else the cross-model reference, decoded and
    paired, of which at most one is kept.  [xlevel] is the name of the
    property that would carry the cross-model level reference; the
    program reads no such property.  [code_normalizeLevelRef] is what
    STEP 6 does, in the same form. *)

Section LevelRef.
Variable U : Utils.

Definition spec_normalizeLevelRef (xlevel : string) (element : Element)
    (owningModelId : string) : option (string * string) :=
  if JS.truthy (JS.get element (QC_Level U)) then
    Some (owningModelId, toFullKey U (JS.get element (QC_Level U)))
  else
    match fromXrefKeyArray U (JS.get element xlevel) with
    | (m :: _, k :: _) => Some (("urn:adsk.dtm:" ++ m)%string, k)
    | _ => None
    end.

Definition code_normalizeLevelRef (element : Element)
    (owningModelId : string) : option (string * string) :=
  if JS.truthy (levelRef_of U element) then
    Some (owningModelId, toFullKey U (levelRef_of U element))
  else None.

(** Modelled from the spec: [Encoding.fromXrefKeyArray] is not among the
    sources; for an element without a cross-model reference the
    specification has the normalizer produce an empty sequence, that is,
    the decoder answers an absent text with two empty arrays. *)
Definition absent_xref_decodes_to_nothing : Prop :=
  fromXrefKeyArray U None = ([], []).

End LevelRef.

(** ** The rooms an asset names as the specification tells them apart

    For the specification a room is a pair of a model and a key, and two
    rooms are the same when both agree.  [spec_distinct_rooms] lists the
    rooms the references of an asset name in that sense, each once;
    [named_rooms] is what STEP 5 tells apart. *)



(** ** A small codec and service to run the program on

    In place of the binary codec of [common/utils.js]: a short key [s]
    has the full key [F.s]; an array of short keys is written with commas;
    an array of cross-model references is written as the model ids, a bar,
    and the element keys, both with commas. *)

Module Demo.

Fixpoint split_on (sep : Ascii.ascii) (cur s : string) : list string :=
  match s with
  | EmptyString => [cur]
  | String c s' =>
      if Ascii.eqb c sep then cur :: split_on sep "" s'
      else split_on sep (cur ++ String c "") s'
  end.

Definition fields (text : string) : list string :=
  if String.eqb text "" then [] else split_on ","%char "" text.

Definition full_key (key : JS.value) : string :=
  match key with
  | None => "F.undefined"
  | Some s => if String.prefix "F." s then s else "F." ++ s
  end.

Definition short_keys (text : JS.value) : list string :=
  match text with
  | None => []
  | Some t => fields t
  end.

Definition xref_keys (text : JS.value) : list string * list string :=
  match text with
  | None => ([], [])
  | Some t =>
      match split_on "|"%char "" t with
      | [ms] => (fields ms, [])
      | ms :: ks :: _ => (fields ms, fields ks)
      | [] => ([], [])
      end
  end.

Definition utils : Utils :=
  {| QC_Key := "k"; QC_Name := "n:n"; QC_Rooms := "l:r";
     QC_XRooms := "x:r"; QC_Level := "l:l";
     CF_Standard := "n"; CF_DtProperties := "z"; CF_Refs := "l";
     CF_Xrefs := "x";
     toFullKey := full_key;
     fromShortKeyArray := short_keys;
     fromXrefKeyArray := xref_keys |}.

(** A service given by the elements of each model: a scan without keys
    returns them all, a scan with keys those asked for, by short or
    by full key. *)
Definition service (links : list string)
    (models : list (string * list Element)) : Backend :=
  {| twin := fun _ =>
       {| Facility.links :=
            map (fun m => {| Facility.modelId := m |}) links |};
     scan := fun urn inputs =>
       let all :=
         match JS.get models urn with
         | Some es => es
         | None => []
         end in
       match keys inputs with
       | None => all
       | Some ks =>
           filter (fun e =>
                     existsb (fun k =>
                                String.eqb (full_key k)
                                           (full_key (JS.get e "k")))
                             ks)
                  all
       end |}.

(** The same service, returning of each element its key and the
    properties of the families asked for, no others. *)
Definition of_families (fams : list string) (e : Element) : Element :=
  filter (fun kv =>
            negb (JS.includes ":" (fst kv)) ||
            existsb (fun f => String.prefix (f ++ ":") (fst kv)) fams)
         e.

Definition service_by_family (links : list string)
    (models : list (string * list Element)) : Backend :=
  {| twin := twin (service links models);
     scan := fun urn inputs =>
       map (of_families (families inputs))
           (scan (service links models) urn inputs) |}.

Definition facility_urn : string := "urn:adsk.dtt:fac".

(** One asset in model A referring, across models, to room [r1] of model
    B and room [r1] of model C; both rooms exist. *)
Definition two_models : Backend :=
  service ["urn:adsk.dtm:fac"; "urn:adsk.dtm:A"]
    [("urn:adsk.dtm:fac", [[("k", "d1"); ("z:a", "1")]]);
     ("urn:adsk.dtm:A",
        [[("k", "a1"); ("n:n", "pump"); ("z:a", "1");
          ("x:r", "B,C|F.r1,F.r1")]]);
     ("urn:adsk.dtm:B", [[("k", "r1"); ("n:n", "lab"); ("l:l", "l1")];
                          [("k", "l1"); ("n:n", "first floor")]]);
     ("urn:adsk.dtm:C", [[("k", "r1"); ("n:n", "hall")]])].

(** One asset in model A referring, within its model, to the rooms [r1]
    and [r2]; model A has no element [r2]. *)
Definition dangling : Backend :=
  service ["urn:adsk.dtm:fac"; "urn:adsk.dtm:A"]
    [("urn:adsk.dtm:A",
        [[("k", "a1"); ("n:n", "pump"); ("z:a", "1"); ("l:r", "r1,r2")];
         [("k", "r1"); ("n:n", "lab"); ("l:l", "l1")];
         [("k", "l1"); ("n:n", "first floor")]])].

(** One asset whose cross-model reference decodes to two model ids and
    one element key. *)
Definition unequal : Backend :=
  service ["urn:adsk.dtm:A"]
    [("urn:adsk.dtm:A",
        [[("k", "a1"); ("n:n", "pump"); ("z:a", "1");
          ("x:r", "B,C|F.r1")]]);
     ("urn:adsk.dtm:B", [[("k", "r1"); ("n:n", "lab")]])].

(** A room of model B whose only level reference is a cross-model one,
    to level [l1] of model C. *)
Definition xref_level : Backend :=
  service_by_family ["urn:adsk.dtm:A"]
    [("urn:adsk.dtm:A",
        [[("k", "a1"); ("n:n", "pump"); ("z:a", "1"); ("x:r", "B|F.r1")]]);
     ("urn:adsk.dtm:B",
        [[("k", "r1"); ("n:n", "lab"); ("x:l", "C|F.l1")]]);
     ("urn:adsk.dtm:C", [[("k", "l1"); ("n:n", "first floor")]])].


(** One asset with no room reference at all. *)
Definition unplaced : Backend :=
  service ["urn:adsk.dtm:A"]
    [("urn:adsk.dtm:A", [[("k", "a1"); ("n:n", "pump"); ("z:a", "1")]])].

End Demo.

(** * Properties *)

(** ** Objects and sets *)

Module JSFacts.
Import JS.

Lemma value_eqb_eq (a b : value) : value_eqb a b = true <-> a = b.
Proof.
  destruct a as [x|], b as [y|]; simpl; try (split; congruence).
  rewrite String.eqb_eq. split; congruence.
Qed.

Lemma value_eqb_refl (a : value) : value_eqb a a = true.
Proof. now apply value_eqb_eq. Qed.

Lemma value_eqb_neq (a b : value) : value_eqb a b = false <-> a <> b.
Proof.
  rewrite <- value_eqb_eq. destruct (value_eqb a b); split; congruence.
Qed.

Section Objects.
Variable V : Type.
Implicit Types (o : obj V) (k : string) (v : V).

Lemma get_set o k v k' :
  get (set o k v) k' = if String.eqb k k' then Some v else get o k'.
Proof.
  induction o as [|[k0 v0] o IH]; simpl.
  - destruct (String.eqb k k'); reflexivity.
  - destruct (String.eqb k0 k) eqn:E0; simpl.
    + apply String.eqb_eq in E0. subst k0.
      destruct (String.eqb k k'); reflexivity.
    + destruct (String.eqb k0 k') eqn:E1.
      * apply String.eqb_eq in E1. subst k0.
        rewrite String.eqb_sym, E0. reflexivity.
      * exact IH.
Qed.

Lemma get_set_same o k v : get (set o k v) k = Some v.
Proof. now rewrite get_set, String.eqb_refl. Qed.

Lemma get_set_other o k v k' :
  k <> k' -> get (set o k v) k' = get o k'.
Proof.
  intros H. rewrite get_set.
  apply String.eqb_neq in H. now rewrite H.
Qed.

Lemma get_None o k : get o k = None <-> ~ In k (keys o).
Proof.
  induction o as [|[k0 v0] o IH]; simpl.
  - tauto.
  - destruct (String.eqb k0 k) eqn:E.
    + apply String.eqb_eq in E. split; [discriminate | tauto].
    + apply String.eqb_neq in E. rewrite IH. tauto.
Qed.

Lemma get_Some_In o k v : get o k = Some v -> In k (keys o).
Proof.
  intros H. destruct (in_dec string_dec k (keys o)) as [Hin|Hout]; auto.
  apply get_None in Hout. congruence.
Qed.

Lemma keys_set o k v k' :
  In k' (keys (set o k v)) <-> k' = k \/ In k' (keys o).
Proof.
  induction o as [|[k0 v0] o IH]; simpl.
  - intuition congruence.
  - destruct (String.eqb k0 k) eqn:E; simpl.
    + apply String.eqb_eq in E. subst. intuition congruence.
    + rewrite IH. intuition congruence.
Qed.

Lemma keys_set_NoDup o k v : NoDup (keys o) -> NoDup (keys (set o k v)).
Proof.
  induction o as [|[k0 v0] o IH]; simpl; intros H.
  - constructor; [tauto | constructor].
  - inversion H as [|? ? Hk0 Ho]; subst.
    destruct (String.eqb k0 k) eqn:E; simpl.
    + now constructor.
    + constructor; [|auto].
      rewrite keys_set. apply String.eqb_neq in E. intuition congruence.
Qed.

End Objects.

Section Sets.
Variable A : Type.
Variable eqb : A -> A -> bool.
Hypothesis eqb_eq : forall a b, eqb a b = true <-> a = b.

Lemma existsb_eqb_In (x : A) (s : list A) :
  existsb (eqb x) s = true <-> In x s.
Proof.
  rewrite existsb_exists. split.
  - intros (y & Hy & E). apply eqb_eq in E. now subst.
  - intros H. exists x. split; [assumption | now apply eqb_eq].
Qed.

Lemma set_add_In (s : list A) (v x : A) :
  In x (set_add eqb s v) <-> In x s \/ x = v.
Proof.
  unfold set_add. destruct (existsb (eqb v) s) eqn:E.
  - apply existsb_eqb_In in E. split; [tauto | intros [H| ->]; assumption].
  - rewrite in_app_iff. simpl. intuition congruence.
Qed.

Lemma set_add_NoDup (s : list A) (v : A) :
  NoDup s -> NoDup (set_add eqb s v).
Proof.
  intros H. unfold set_add. destruct (existsb (eqb v) s) eqn:E; auto.
  assert (~ In v s) as Hv.
  { intros Hin. apply existsb_eqb_In in Hin. congruence. }
  clear E. induction H as [|y s Hy Hs IH]; simpl.
  - constructor; [tauto | constructor].
  - constructor.
    + rewrite in_app_iff. simpl in *. intuition congruence.
    + apply IH. simpl in Hv. tauto.
Qed.

Lemma fold_set_add_In (l s : list A) (x : A) :
  In x (fold_left (set_add eqb) l s) <-> In x s \/ In x l.
Proof.
  revert s. induction l as [|v l IH]; simpl; intros s.
  - tauto.
  - rewrite IH, set_add_In. intuition congruence.
Qed.

Lemma fold_set_add_NoDup (l s : list A) :
  NoDup s -> NoDup (fold_left (set_add eqb) l s).
Proof.
  revert s. induction l as [|v l IH]; simpl; intros s H; auto.
  apply IH. now apply set_add_NoDup.
Qed.

Lemma new_Set_In (l : list A) (x : A) : In x (new_Set eqb l) <-> In x l.
Proof. unfold new_Set. rewrite fold_set_add_In. simpl. tauto. Qed.

Lemma new_Set_NoDup (l : list A) : NoDup (new_Set eqb l).
Proof. apply fold_set_add_NoDup. constructor. Qed.

End Sets.

Section FoldSet.
Variables (X V : Type) (kf : X -> string) (vf : X -> V).

Lemma keys_fold_set (l : list X) (o : obj V) (k : string) :
  In k (keys (fold_left (fun o x => set o (kf x) (vf x)) l o)) <->
  In k (keys o) \/ In k (map kf l).
Proof.
  revert o. induction l as [|x l IH]; simpl; intros o.
  - tauto.
  - rewrite IH, keys_set. intuition congruence.
Qed.

Lemma keys_fold_set_NoDup (l : list X) (o : obj V) :
  NoDup (keys o) ->
  NoDup (keys (fold_left (fun o x => set o (kf x) (vf x)) l o)).
Proof.
  revert o. induction l as [|x l IH]; simpl; intros o H; auto.
  apply IH. now apply keys_set_NoDup.
Qed.

Lemma get_fold_set_Some (l : list X) (o : obj V) (k : string) (v : V) :
  get (fold_left (fun o x => set o (kf x) (vf x)) l o) k = Some v ->
  get o k = Some v \/ exists x, In x l /\ kf x = k /\ vf x = v.
Proof.
  revert o. induction l as [|x l IH]; simpl; intros o H.
  - now left.
  - apply IH in H. destruct H as [H|(y & Hy & Hk & Hv)].
    + rewrite get_set in H. destruct (String.eqb (kf x) k) eqn:E.
      * apply String.eqb_eq in E. right. exists x.
        repeat split; [now left | assumption | congruence].
      * now left.
    + right. exists y. auto.
Qed.

Lemma get_fold_set_None (l : list X) (o : obj V) (k : string) :
  get o k = None -> ~ In k (map kf l) ->
  get (fold_left (fun o x => set o (kf x) (vf x)) l o) k = None.
Proof.
  intros Ho Hl. apply get_None. rewrite keys_fold_set.
  apply get_None in Ho. tauto.
Qed.

End FoldSet.

End JSFacts.

(** ** The loops of [main] compute the closed forms *)

Module PassFacts.
Section Facts.
Variable U : Utils.
Variable be : Backend.
Variable FACILITY_URN : string.

Lemma env_eta (st : Env) :
  st = {| data := data st; modelRooms := modelRooms st;
          trace := trace st |}.
Proof. now destruct st. Qed.

Lemma data_eta (d : Data) :
  d = {| levels := levels d; rooms := rooms d; assets := assets d;
         roomAssetsMap := roomAssetsMap d;
         roomLevelMap := roomLevelMap d |}.
Proof. now destruct d. Qed.

Lemma after_scan_nil (st : Env) : after_scan U st [] = st.
Proof.
  unfold after_scan, pending, edges. simpl. rewrite app_nil_r.
  destruct st as [[] ? ?]. reflexivity.
Qed.

Lemma after_scan_app (st : Env) (l1 l2 : list (string * Element)) :
  after_scan U (after_scan U st l1) l2 = after_scan U st (l1 ++ l2).
Proof.
  unfold after_scan, pending, edges. simpl.
  rewrite !flat_map_app, !fold_left_app, app_assoc. reflexivity.
Qed.

Lemma fold_link_room (assetKey : string) (rs : list RoomRef)
    (m : JS.obj (list string)) :
  fold_left (link_room assetKey) rs m =
  fold_left add_edge
    (map (fun r => (JS.prop_key (roomId r), assetKey)) rs) m.
Proof.
  revert m. induction rs as [|r rs IH]; simpl; intros m; auto.
Qed.

Lemma step_asset_eq (m : string) (st : Env) (asset : Element) :
  step_asset U m st asset = after_scan U st [(m, asset)].
Proof.
  unfold step_asset, after_scan, pending, edges, edges_of. simpl.
  rewrite !app_nil_r, fold_link_room. reflexivity.
Qed.

Lemma fold_step_asset (m : string) (found : list Element) (st : Env) :
  fold_left (step_asset U m) found st =
  after_scan U st (map (pair m) found).
Proof.
  revert st. induction found as [|a found IH]; simpl; intros st.
  - now rewrite after_scan_nil.
  - rewrite IH, step_asset_eq, after_scan_app. reflexivity.
Qed.

Lemma scanned_cons (link : Facility.Link) (ls : list Facility.Link) :
  scanned U be FACILITY_URN {| Facility.links := link :: ls |} =
  (if isDefaultModel FACILITY_URN (Facility.modelId link) then []
   else map (pair (Facility.modelId link))
            (TandemClient.getTaggedAssets U be (Facility.modelId link)
               (asset_families U)))
  ++ scanned U be FACILITY_URN {| Facility.links := ls |}.
Proof.
  unfold scanned, scanned_links. simpl.
  destruct (isDefaultModel FACILITY_URN (Facility.modelId link));
    reflexivity.
Qed.

Lemma asset_requests_cons (link : Facility.Link)
    (ls : list Facility.Link) :
  asset_requests U FACILITY_URN {| Facility.links := link :: ls |} =
  (if isDefaultModel FACILITY_URN (Facility.modelId link) then []
   else [TandemClient.getTaggedAssets_request (Facility.modelId link)
           (asset_families U)])
  ++ asset_requests U FACILITY_URN {| Facility.links := ls |}.
Proof.
  unfold asset_requests, scanned_links. simpl.
  destruct (isDefaultModel FACILITY_URN (Facility.modelId link));
    reflexivity.
Qed.

(** The first pass: [data] and [modelRooms] are those of [after_scan] on
    the scanned assets, and one request per link that is not skipped has
    been sent. *)
Lemma collect_eq (st : Env) (facility : Facility.t) :
  collect U be FACILITY_URN st facility =
  {| data := data (after_scan U st (scanned U be FACILITY_URN facility));
     modelRooms :=
       modelRooms (after_scan U st (scanned U be FACILITY_URN facility));
     trace := trace st ++ asset_requests U FACILITY_URN facility |}.
Proof.
  destruct facility as [ls]. unfold collect. simpl Facility.links.
  revert st. induction ls as [|link ls IH]; intros st.
  - change (scanned U be FACILITY_URN {| Facility.links := [] |})
      with (@nil (string * Element)).
    change (asset_requests U FACILITY_URN {| Facility.links := [] |})
      with (@nil Request).
    rewrite after_scan_nil, app_nil_r. apply env_eta.
  - simpl fold_left. rewrite IH, scanned_cons, asset_requests_cons.
    unfold step_link.
    destruct (isDefaultModel FACILITY_URN (Facility.modelId link)).
    + reflexivity.
    + rewrite fold_step_asset, <- !after_scan_app. simpl.
      f_equal. now rewrite <- app_assoc.
Qed.

Lemma step_room_eq (room : Element) (d : Data) (ls : list JS.value) :
  step_room U (d, ls) room =
  (after_rooms U d [room],
   if JS.truthy (levelRef_of U room)
   then JS.set_add JS.value_eqb ls (levelRef_of U room) else ls).
Proof.
  unfold step_room, after_rooms, level_link, levelRef_of, room_set,
    assetKey_of.
  simpl. destruct (JS.truthy (JS.get room (QC_Level U))); reflexivity.
Qed.

Lemma fold_step_room (found : list Element) (d : Data)
    (ls : list JS.value) :
  fold_left (step_room U) found (d, ls) =
  (after_rooms U d found,
   fold_left (JS.set_add JS.value_eqb)
     (filter JS.truthy (map (levelRef_of U) found)) ls).
Proof.
  revert d ls. induction found as [|room found IH]; intros d ls.
  - simpl. unfold after_rooms. simpl. now rewrite <- data_eta.
  - simpl fold_left at 1. rewrite step_room_eq, IH. simpl map.
    simpl filter.
    destruct (JS.truthy (levelRef_of U room)); reflexivity.
Qed.

Lemma fold_step_level (found : list Element) (d : Data) :
  fold_left (step_level U) found d =
  set_levels d (fold_left (room_set U) found (levels d)).
Proof.
  revert d. induction found as [|level found IH]; intros d.
  - simpl. unfold set_levels. apply data_eta.
  - simpl. rewrite IH. reflexivity.
Qed.

Lemma after_models_nil (p : list RoomRef) (d : Data) :
  after_models U be p d [] = d.
Proof. unfold after_models. simpl. now rewrite <- data_eta. Qed.

Lemma after_models_app (p : list RoomRef) (d : Data)
    (ms1 ms2 : list string) :
  after_models U be p (after_models U be p d ms1) ms2 =
  after_models U be p d (ms1 ++ ms2).
Proof.
  unfold after_models. simpl.
  rewrite !flat_map_app, !fold_left_app. reflexivity.
Qed.

(** One turn of the loop of STEP 6. *)
Lemma step_model_eq (p : list RoomRef) (d : Data) (tr : list Request)
    (m : string) :
  step_model U be p (d, tr) m =
  (after_models U be p d [m], tr ++ requests_of U be p m).
Proof.
  unfold step_model. simpl fst. simpl snd.
  fold (rooms_of U be p m). rewrite fold_step_room. simpl fst. simpl snd.
  fold (JS.new_Set JS.value_eqb
          (filter JS.truthy (map (levelRef_of U) (rooms_of U be p m)))).
  fold (levelIds_of U (rooms_of U be p m)).
  unfold after_models, requests_of, levels_of. simpl flat_map.
  rewrite !app_nil_r.
  destruct (Nat.ltb 0 (length (levelIds_of U (rooms_of U be p m)))).
  - rewrite fold_step_level. unfold set_levels, after_rooms. simpl.
    rewrite <- app_assoc. reflexivity.
  - unfold after_rooms. simpl. reflexivity.
Qed.

Lemma fold_step_model (p : list RoomRef) (ms : list string) (d : Data)
    (tr : list Request) :
  fold_left (step_model U be p) ms (d, tr) =
  (after_models U be p d ms, tr ++ flat_map (requests_of U be p) ms).
Proof.
  revert d tr. induction ms as [|m ms IH]; intros d tr.
  - simpl. now rewrite after_models_nil, app_nil_r.
  - simpl fold_left. rewrite step_model_eq, IH.
    rewrite after_models_app. simpl. now rewrite <- app_assoc.
Qed.

(** The whole run. *)
Lemma main_eq :
  let facility := TandemClient.getFacility be FACILITY_URN in
  let found := scanned U be FACILITY_URN facility in
  let st0 :=
    {| data := empty_data; modelRooms := [];
       trace := [TandemClient.getFacility_request FACILITY_URN] |} in
  main U be FACILITY_URN =
  (after_models U be (pending U found) (data (after_scan U st0 found))
     (modelIds_of (pending U found)),
   TandemClient.getFacility_request FACILITY_URN ::
   asset_requests U FACILITY_URN facility ++
   flat_map (requests_of U be (pending U found))
     (modelIds_of (pending U found))).
Proof.
  intros facility found st0. unfold main, resolve.
  fold facility. fold st0. rewrite collect_eq. fold found.
  simpl modelRooms. simpl data. simpl trace.
  rewrite fold_step_model. reflexivity.
Qed.

Lemma get_add_edge (m : JS.obj (list string)) (e : string * string)
    (r : string) :
  JS.get (add_edge m e) r =
  if String.eqb (fst e) r
  then Some (match JS.get m r with Some ids => ids | None => [] end
             ++ [snd e])
  else JS.get m r.
Proof.
  unfold add_edge. rewrite JSFacts.get_set.
  destruct (String.eqb (fst e) r) eqn:E; auto.
  apply String.eqb_eq in E. now rewrite E.
Qed.

(** The bucket of [r] after STEP 5 has recorded the pairs [es]: what it
    held before followed by the asset keys recorded for [r], oldest
    first; no bucket when there was none and nothing was recorded. *)
Lemma get_add_edges (es : list (string * string))
    (m : JS.obj (list string)) (r : string) :
  JS.get (fold_left add_edge es m) r =
  match JS.get m r with
  | Some ids => Some (ids ++ discovered r es)
  | None =>
      match discovered r es with
      | [] => None
      | ids => Some ids
      end
  end.
Proof.
  revert m. induction es as [|e es IH]; intros m.
  - simpl. destruct (JS.get m r); [now rewrite app_nil_r | reflexivity].
  - simpl fold_left. rewrite IH, get_add_edge. unfold discovered.
    simpl filter. destruct (String.eqb (fst e) r); simpl map.
    + destruct (JS.get m r); simpl.
      * now rewrite <- app_assoc.
      * reflexivity.
    + reflexivity.
Qed.

Lemma level_link_filter (found : list Element) (o : JS.obj string) :
  fold_left (level_link U) found o =
  fold_left
    (fun o room =>
       JS.set o (assetKey_of U room) (toFullKey U (levelRef_of U room)))
    (filter (fun room => JS.truthy (levelRef_of U room)) found) o.
Proof.
  revert o. induction found as [|room found IH]; intros o; simpl; auto.
  unfold level_link at 2.
  destruct (JS.truthy (levelRef_of U room)); simpl; apply IH.
Qed.

Lemma In_scanned (facility : Facility.t) (m : string) (asset : Element) :
  In (m, asset) (scanned U be FACILITY_URN facility) <->
  exists link,
    In link (Facility.links facility) /\
    isDefaultModel FACILITY_URN (Facility.modelId link) = false /\
    m = Facility.modelId link /\
    In asset (TandemClient.getTaggedAssets U be (Facility.modelId link)
                (asset_families U)).
Proof.
  unfold scanned, scanned_links. rewrite in_flat_map. split.
  - intros (link & Hl & Hin). apply filter_In in Hl. destruct Hl as [Hl Hd].
    apply negb_true_iff in Hd. apply in_map_iff in Hin.
    destruct Hin as (a & Ha & Hin). inversion Ha; subst.
    exists link. auto.
  - intros (link & Hl & Hd & -> & Hin). exists link. split.
    + apply filter_In. split; [assumption | now rewrite Hd].
    + now apply in_map.
Qed.

Lemma In_pending (l : list (string * Element)) (r : RoomRef) :
  In r (pending U l) <->
  exists m asset, In (m, asset) l /\ In r (assetRooms U m asset).
Proof.
  unfold pending. rewrite in_flat_map. split.
  - intros ([m a] & H1 & H2). exists m, a. auto.
  - intros (m & a & H1 & H2). exists (m, a). auto.
Qed.

(** STEP 4 when the asset has no room reference within its model: one
    entry per model id the cross-model reference decodes to. *)
Lemma assetRooms_xref (m : string) (asset : Element) :
  JS.truthy (JS.get asset (QC_Rooms U)) = false ->
  assetRooms U m asset =
  map (fun i =>
         {| modelId :=
              "urn:adsk.dtm:" ++
              nth i (fst (fromXrefKeyArray U (JS.get asset (QC_XRooms U))))
                    "";
            roomId :=
              nth_error
                (snd (fromXrefKeyArray U (JS.get asset (QC_XRooms U)))) i |})
      (seq 0 (length
                (fst (fromXrefKeyArray U (JS.get asset (QC_XRooms U)))))).
Proof. intros H. unfold assetRooms. now rewrite H. Qed.

Lemma assetRooms_same (m : string) (asset : Element) :
  JS.truthy (JS.get asset (QC_Rooms U)) = true ->
  assetRooms U m asset =
  map (fun roomKey =>
         {| modelId := m; roomId := Some (toFullKey U (Some roomKey)) |})
      (fromShortKeyArray U (JS.get asset (QC_Rooms U))).
Proof. intros H. unfold assetRooms. now rewrite H. Qed.

Lemma nth_error_map_seq (A : Type) (f : nat -> A) (n i : nat) :
  i < n -> nth_error (map f (seq 0 n)) i = Some (f i).
Proof.
  intros H. rewrite nth_error_map, nth_error_seq.
  destruct (Nat.ltb_spec i n); [reflexivity | lia].
Qed.

(** Every entry of [modelRooms] has its model among [modelIds], its room
    id among the keys asked of that model, and that request is sent. *)
Lemma pending_requested (p : list RoomRef) (r : RoomRef) :
  In r p ->
  In (modelId r) (modelIds_of p) /\
  In (roomId r) (roomIds_of p (modelId r)) /\
  In (room_request U p (modelId r))
     (flat_map (requests_of U be p) (modelIds_of p)).
Proof.
  intros H.
  assert (In (modelId r) (modelIds_of p)) as Hm.
  { unfold modelIds_of. apply (@JSFacts.new_Set_In _ String.eqb String.eqb_eq).
    now apply in_map. }
  split; [assumption | split].
  - unfold roomIds_of. apply (@JSFacts.new_Set_In _ JS.value_eqb JSFacts.value_eqb_eq).
    apply in_map. apply filter_In. split; [assumption|].
    apply String.eqb_refl.
  - apply in_flat_map. exists (modelId r). split; [assumption|].
    unfold requests_of. now left.
Qed.

Lemma main_trace :
  snd (main U be FACILITY_URN) =
  TandemClient.getFacility_request FACILITY_URN ::
  asset_requests U FACILITY_URN (TandemClient.getFacility be FACILITY_URN)
  ++ flat_map
       (requests_of U be
          (pending U
             (scanned U be FACILITY_URN
                (TandemClient.getFacility be FACILITY_URN))))
       (modelIds_of
          (pending U
             (scanned U be FACILITY_URN
                (TandemClient.getFacility be FACILITY_URN)))).
Proof. now rewrite main_eq. Qed.

Lemma main_assets :
  assets (fst (main U be FACILITY_URN)) =
  fold_left (asset_set U)
    (scanned U be FACILITY_URN (TandemClient.getFacility be FACILITY_URN))
    [].
Proof. now rewrite main_eq. Qed.

Lemma main_roomAssetsMap :
  roomAssetsMap (fst (main U be FACILITY_URN)) =
  fold_left add_edge
    (edges U
       (scanned U be FACILITY_URN
          (TandemClient.getFacility be FACILITY_URN)))
    [].
Proof. now rewrite main_eq. Qed.

Lemma main_rooms :
  rooms (fst (main U be FACILITY_URN)) =
  fold_left (room_set U)
    (flat_map
       (rooms_of U be
          (pending U
             (scanned U be FACILITY_URN
                (TandemClient.getFacility be FACILITY_URN))))
       (modelIds_of
          (pending U
             (scanned U be FACILITY_URN
                (TandemClient.getFacility be FACILITY_URN)))))
    [].
Proof. now rewrite main_eq. Qed.

Lemma main_roomLevelMap :
  roomLevelMap (fst (main U be FACILITY_URN)) =
  fold_left (level_link U)
    (flat_map
       (rooms_of U be
          (pending U
             (scanned U be FACILITY_URN
                (TandemClient.getFacility be FACILITY_URN))))
       (modelIds_of
          (pending U
             (scanned U be FACILITY_URN
                (TandemClient.getFacility be FACILITY_URN)))))
    [].
Proof. now rewrite main_eq. Qed.

End Facts.
End PassFacts.

(** ** Properties of the run *)

Section Claims.
Variable U : Utils.
Variable be : Backend.
Variable FACILITY_URN : string.

Local Abbreviation facility := (TandemClient.getFacility be FACILITY_URN).
Local Abbreviation found := (scanned U be FACILITY_URN facility).
Local Abbreviation run := (main U be FACILITY_URN).



(** C1. An asset scanned from a model A that has no room reference within
    its model and whose cross-model reference decodes to the model ids
    [ms] and element keys [ks]: the i-th entry of its [assetRooms] names
    the model [urn:adsk.dtm:] followed by the i-th decoded model id (the
    model A plays no part in it) with the i-th key, and STEP 6 sends a
    request for rooms to that model, with that key among those asked
    for. *)
Theorem xref_room_fetched_from_its_model
    (link : Facility.Link) (asset : Element) (ms ks : list string)
    (i : nat) (b : string) :
  In link (Facility.links facility) ->
  isDefaultModel FACILITY_URN (Facility.modelId link) = false ->
  In asset (TandemClient.getTaggedAssets U be (Facility.modelId link)
              (asset_families U)) ->
  JS.truthy (JS.get asset (QC_Rooms U)) = false ->
  fromXrefKeyArray U (JS.get asset (QC_XRooms U)) = (ms, ks) ->
  nth_error ms i = Some b ->
  nth_error (assetRooms U (Facility.modelId link) asset) i =
    Some {| modelId := "urn:adsk.dtm:" ++ b; roomId := nth_error ks i |} /\
  exists ids,
    In (nth_error ks i) ids /\
    In (TandemClient.getElements_request ("urn:adsk.dtm:" ++ b) ids
          (room_families U))
       (snd run).
Proof.
  intros Hlink Hdef Hasset Hsame Hdec Hb.
  assert (i < length ms) as Hi.
  { apply nth_error_Some. congruence. }
  assert (nth_error (assetRooms U (Facility.modelId link) asset) i =
          Some {| modelId := "urn:adsk.dtm:" ++ b;
                  roomId := nth_error ks i |}) as Hnth.
  { rewrite PassFacts.assetRooms_xref by assumption. rewrite Hdec. simpl.
    rewrite PassFacts.nth_error_map_seq by assumption.
    now rewrite (nth_error_nth _ _ _ Hb). }
  split; [exact Hnth|].
  assert (In {| modelId := "urn:adsk.dtm:" ++ b;
                roomId := nth_error ks i |} (pending U found)) as Hp.
  { apply PassFacts.In_pending. exists (Facility.modelId link), asset.
    split.
    - apply PassFacts.In_scanned. exists link. auto.
    - eapply nth_error_In. exact Hnth. }
  destruct (PassFacts.pending_requested U be _ _ Hp) as (_ & Hid & Hreq).
  simpl in Hid, Hreq.
  exists (roomIds_of (pending U found) ("urn:adsk.dtm:" ++ b)).
  split; [exact Hid|].
  rewrite PassFacts.main_trace. right. apply in_or_app. right. exact Hreq.
Qed.


Lemma discovered_one_asset (assetKey r : string) (rs : list RoomRef) :
  discovered r (map (fun x => (JS.prop_key (roomId x), assetKey)) rs) =
  repeat assetKey
    (count_occ string_dec (map (fun x => JS.prop_key (roomId x)) rs) r).
Proof.
  unfold discovered. induction rs as [|x rs IH]; auto.
  cbn [map filter fst snd count_occ].
  destruct (string_dec (JS.prop_key (roomId x)) r) as [E|E].
  - rewrite E, String.eqb_refl. cbn [map snd repeat]. now rewrite <- IH.
  - apply String.eqb_neq in E. now rewrite E.
Qed.

Lemma step_asset_bucket (m : string) (st : Env) (asset : Element)
    (r : string) :
  JS.get (roomAssetsMap (data (step_asset U m st asset))) r =
  match JS.get (roomAssetsMap (data st)) r with
  | Some ids =>
      Some (ids ++ repeat (assetKey_of U asset)
                     (count_occ string_dec
                        (map (fun x => JS.prop_key (roomId x))
                             (assetRooms U m asset)) r))
  | None =>
      match repeat (assetKey_of U asset)
              (count_occ string_dec
                 (map (fun x => JS.prop_key (roomId x))
                      (assetRooms U m asset)) r) with
      | [] => None
      | ids => Some ids
      end
  end.
Proof.
  rewrite PassFacts.step_asset_eq. unfold after_scan. simpl.
  rewrite PassFacts.get_add_edges. unfold edges. simpl.
  rewrite app_nil_r. unfold edges_of. simpl.
  now rewrite discovered_one_asset.
Qed.

Lemma named_rooms_count (m : string) (asset : Element) (r : string) :
  In r (named_rooms U m asset) <->
  0 < count_occ string_dec
        (map (fun x => JS.prop_key (roomId x)) (assetRooms U m asset)) r.
Proof.
  unfold named_rooms.
  rewrite (@JSFacts.new_Set_In _ String.eqb String.eqb_eq).
  apply count_occ_In.
Qed.

Lemma In_discovered (r k : string) (es : list (string * string)) :
  In k (discovered r es) <-> In (r, k) es.
Proof.
  unfold discovered. rewrite in_map_iff. split.
  - intros ([r' k'] & Hk & Hin). simpl in Hk. subst k'.
    apply filter_In in Hin. destruct Hin as [Hin E]. simpl in E.
    apply String.eqb_eq in E. now subst.
  - intros H. exists (r, k). split; [reflexivity|].
    apply filter_In. split; [assumption | apply String.eqb_refl].
Qed.

Lemma discovered_nil (r : string) (es : list (string * string)) :
  discovered r es = [] <-> ~ In r (map fst es).
Proof.
  split.
  - intros H Hin. apply in_map_iff in Hin. destruct Hin as ([r' k] & E & Hin).
    simpl in E. subst r'. apply In_discovered in Hin. now rewrite H in Hin.
  - intros H. destruct (discovered r es) as [|k l] eqn:E; auto.
    exfalso. apply H. apply in_map_iff. exists (r, k). split; auto.
    apply In_discovered. rewrite E. now left.
Qed.

(** The bucket of [r] at the end of the run. *)
Lemma run_bucket (r : string) :
  JS.get (roomAssetsMap (fst run)) r =
  match discovered r (edges U found) with
  | [] => None
  | ids => Some ids
  end.
Proof. now rewrite PassFacts.main_roomAssetsMap, PassFacts.get_add_edges. Qed.

Lemma In_edges (r k : string) (l : list (string * Element)) :
  In (r, k) (edges U l) <->
  exists m asset x,
    In (m, asset) l /\ In x (assetRooms U m asset) /\
    r = JS.prop_key (roomId x) /\ k = assetKey_of U asset.
Proof.
  unfold edges, edges_of. rewrite in_flat_map. split.
  - intros ([m a] & Hin & H). apply in_map_iff in H.
    destruct H as (x & E & Hx). inversion E; subst.
    exists m, a, x. auto.
  - intros (m & a & x & Hin & Hx & -> & ->). exists (m, a).
    split; [assumption|]. apply in_map_iff. exists x. auto.
Qed.

Lemma edges_pending (l : list (string * Element)) :
  map fst (edges U l) =
  map (fun x => JS.prop_key (roomId x)) (pending U l).
Proof.
  unfold edges, pending, edges_of.
  induction l as [|ma l IH]; simpl; auto.
  rewrite !map_app, IH, map_map. reflexivity.
Qed.


Lemma is_room_request_rooms (p : list RoomRef) (m : string) :
  is_room_request U (room_request U p m) = true.
Proof.
  unfold is_room_request, room_request, TandemClient.getElements_request.
  cbn [keys families].
  match goal with
  | |- context [list_eq_dec ?d ?a ?b] => destruct (list_eq_dec d a b)
  end; congruence.
Qed.

Lemma is_room_request_levels (p : list RoomRef) (m : string) :
  is_room_request U (level_request U be p m) = false.
Proof.
  unfold is_room_request, level_request, TandemClient.getElements_request,
    TandemClient.getElements_default, room_families.
  cbn [keys families].
  match goal with
  | |- context [list_eq_dec ?d ?a ?b] => destruct (list_eq_dec d a b)
  end; [discriminate | reflexivity].
Qed.

Lemma room_requests_of_pass2 (p : list RoomRef) (ms : list string) :
  filter (is_room_request U) (flat_map (requests_of U be p) ms) =
  map (room_request U p) ms.
Proof.
  induction ms as [|m ms IH]; auto.
  cbn [flat_map map]. rewrite filter_app, IH. unfold requests_of.
  cbn [filter]. rewrite is_room_request_rooms.
  destruct (Nat.ltb 0 (length (levelIds_of U (rooms_of U be p m)))).
  - cbn [filter]. now rewrite is_room_request_levels.
  - reflexivity.
Qed.

Lemma room_requests_of_pass1 (f : Facility.t) :
  filter (is_room_request U) (asset_requests U FACILITY_URN f) = [].
Proof.
  unfold asset_requests.
  induction (scanned_links FACILITY_URN f) as [|link ls IH]; auto.
Qed.

Lemma filter_eqb_NoDup (m : string) (ms : list string) :
  NoDup ms -> In m ms -> filter (String.eqb m) ms = [m].
Proof.
  induction 1 as [|x ms Hx Hms IH]; [contradiction|].
  intros [->|Hin]; simpl.
  - rewrite String.eqb_refl. f_equal.
    clear IH Hms. induction ms as [|y ms IH]; auto. simpl.
    destruct (String.eqb m y) eqn:E.
    + apply String.eqb_eq in E. subst. exfalso. apply Hx. now left.
    + apply IH. intros H. apply Hx. now right.
  - destruct (String.eqb m x) eqn:E.
    + apply String.eqb_eq in E. subst. contradiction.
    + now apply IH.
Qed.

Lemma filter_room_requests_urn (p : list RoomRef) (m : string)
    (ms : list string) :
  filter (fun q => String.eqb m (request_urn q))
         (map (room_request U p) ms) =
  map (room_request U p) (filter (String.eqb m) ms).
Proof.
  induction ms as [|x ms IH]; auto.
  cbn [map filter]. rewrite IH.
  change (request_urn (room_request U p x)) with x.
  destruct (String.eqb m x); reflexivity.
Qed.

(** C4. STEP 6 goes through the distinct model ids of [modelRooms], each
    once; the requests for rooms it sends are, in that order, one per such
    model, to that model; so each of these models gets exactly one; and
    the keys asked of a model are the room ids pending for it, each
    once. *)
Theorem one_room_request_per_model :
  NoDup (modelIds_of (pending U found)) /\
  (forall m,
     In m (modelIds_of (pending U found)) <->
     exists x, In x (pending U found) /\ modelId x = m) /\
  filter (is_room_request U) (snd run) =
    map (fun m =>
           TandemClient.getElements_request m
             (roomIds_of (pending U found) m) (room_families U))
        (modelIds_of (pending U found)) /\
  (forall m,
     In m (modelIds_of (pending U found)) ->
     length (filter (fun q => String.eqb m (request_urn q))
               (filter (is_room_request U) (snd run))) = 1) /\
  (forall m,
     NoDup (roomIds_of (pending U found) m) /\
     forall k,
       In k (roomIds_of (pending U found) m) <->
       exists x, In x (pending U found) /\ modelId x = m /\ roomId x = k).
Proof.
  assert (filter (is_room_request U) (snd run) =
          map (room_request U (pending U found))
              (modelIds_of (pending U found))) as Hreq.
  { rewrite PassFacts.main_trace. cbn [filter].
    unfold TandemClient.getFacility_request at 1. cbn [is_room_request].
    rewrite filter_app, room_requests_of_pass1, room_requests_of_pass2.
    reflexivity. }
  assert (NoDup (modelIds_of (pending U found))) as Hnd.
  { apply (@JSFacts.new_Set_NoDup _ String.eqb String.eqb_eq). }
  split; [exact Hnd | split; [|split; [|split]]].
  - intros m. unfold modelIds_of.
    rewrite (@JSFacts.new_Set_In _ String.eqb String.eqb_eq), in_map_iff.
    split; intros (x & H1 & H2); exists x; auto.
  - exact Hreq.
  - intros m Hm.
    rewrite Hreq, filter_room_requests_urn, filter_eqb_NoDup by assumption.
    reflexivity.
  - intros m. split.
    + apply (@JSFacts.new_Set_NoDup _ JS.value_eqb JSFacts.value_eqb_eq).
    + intros k. unfold roomIds_of.
      rewrite (@JSFacts.new_Set_In _ JS.value_eqb JSFacts.value_eqb_eq).
      rewrite in_map_iff. split.
      * intros (x & Hk & Hx). apply filter_In in Hx.
        destruct Hx as [Hx E]. apply String.eqb_eq in E. eauto.
      * intros (x & Hx & Hm & Hk). exists x. split; [assumption|].
        apply filter_In. split; [assumption|]. now apply String.eqb_eq.
Qed.

Local Abbreviation fetched_rooms :=
  (flat_map (rooms_of U be (pending U found))
     (modelIds_of (pending U found))).

Lemma run_rooms_keys (k : string) :
  In k (JS.keys (rooms (fst run))) <->
  exists room, In room fetched_rooms /\ k = assetKey_of U room.
Proof.
  rewrite PassFacts.main_rooms. unfold room_set.
  rewrite (JSFacts.keys_fold_set (assetKey_of U) (fun room => room)).
  simpl. rewrite in_map_iff. split.
  - intros [[]|(room & E & H)]. exists room. auto.
  - intros (room & H & E). right. exists room. auto.
Qed.

Lemma run_roomLevelMap_keys (k : string) :
  In k (JS.keys (roomLevelMap (fst run))) <->
  exists room,
    In room fetched_rooms /\ JS.truthy (levelRef_of U room) = true /\
    k = assetKey_of U room.
Proof.
  rewrite PassFacts.main_roomLevelMap, PassFacts.level_link_filter.
  rewrite (JSFacts.keys_fold_set (assetKey_of U)
             (fun room => toFullKey U (levelRef_of U room))).
  simpl. rewrite in_map_iff. split.
  - intros [[]|(room & E & H)]. apply filter_In in H.
    exists room. intuition.
  - intros (room & H & T & E). right. exists room. split; [auto|].
    apply filter_In. auto.
Qed.



(** C8. [getAssetsByRoom] at the end of the run, on a room id for which
    STEP 5 recorded nothing, throws; on one for which it recorded
    something, it yields the asset keys recorded for it, oldest first,
    each with [data.assets] at that key.  On any [data], a bucket that is
    there and empty yields nothing and does not throw. *)
Theorem getAssetsByRoom_throws_on_unrecorded :
  (forall roomKey,
     ~ In (JS.prop_key roomKey) (map fst (edges U found)) ->
     getAssetsByRoom (fst run) roomKey =
     JS.Throw (JS.TypeError "assetKeys is not iterable")) /\
  (forall roomKey,
     In (JS.prop_key roomKey) (map fst (edges U found)) ->
     getAssetsByRoom (fst run) roomKey =
     JS.Ok (map (fun assetKey =>
                   (assetKey, JS.get (assets (fst run)) assetKey))
                (discovered (JS.prop_key roomKey) (edges U found)))) /\
  (forall d roomKey,
     JS.get (roomAssetsMap d) (JS.prop_key roomKey) = Some [] ->
     getAssetsByRoom d roomKey = JS.Ok []).
Proof.
  repeat split.
  - intros roomKey H. unfold getAssetsByRoom. rewrite run_bucket.
    apply discovered_nil in H. now rewrite H.
  - intros roomKey H. unfold getAssetsByRoom. rewrite run_bucket.
    destruct (discovered (JS.prop_key roomKey) (edges U found)) eqn:E.
    + apply discovered_nil in E. contradiction.
    + reflexivity.
  - intros d roomKey H. unfold getAssetsByRoom. now rewrite H.
Qed.

Lemma step_asset_appends (m : string) (st : Env) (asset : Element)
    (r : string) :
  In r (named_rooms U m asset) ->
  exists ids,
    JS.get (roomAssetsMap (data (step_asset U m st asset))) r = Some ids /\
    In (assetKey_of U asset) ids.
Proof.
  intros Hr. apply named_rooms_count in Hr. rewrite step_asset_bucket.
  destruct (count_occ string_dec _ r) as [|n]; [lia|].
  destruct (JS.get (roomAssetsMap (data st)) r) as [ids|]; simpl.
  - exists (ids ++ assetKey_of U asset :: repeat (assetKey_of U asset) n).
    split; [reflexivity|]. apply in_or_app. right. now left.
  - eexists. split; [reflexivity | now left].
Qed.

(** C6, as the program has it.  For an asset without a room reference
    within its model whose cross-model reference decodes to the model ids
    [ms] and the element keys [ks], whatever their lengths: [assetRooms]
    has one entry per model id, the i-th pairing the i-th model id with
    the i-th key, or with [undefined] when [ks] has no i-th entry; keys
    beyond the length of [ms] are left out; and when [ks] is the shorter
    the asset's key is put in the bucket named [undefined].  Nothing is
    checked or reported, and the loop goes on. *)
Theorem xref_arrays_paired_by_model_id
    (m : string) (st : Env) (asset : Element) (ms ks : list string) :
  JS.truthy (JS.get asset (QC_Rooms U)) = false ->
  fromXrefKeyArray U (JS.get asset (QC_XRooms U)) = (ms, ks) ->
  length (assetRooms U m asset) = length ms /\
  (forall i b,
     nth_error ms i = Some b ->
     nth_error (assetRooms U m asset) i =
     Some {| modelId := "urn:adsk.dtm:" ++ b; roomId := nth_error ks i |}) /\
  (length ks < length ms ->
   exists ids,
     JS.get (roomAssetsMap (data (step_asset U m st asset))) "undefined" =
     Some ids /\
     In (assetKey_of U asset) ids).
Proof.
  intros Hsame Hdec.
  assert (forall i b,
            nth_error ms i = Some b ->
            nth_error (assetRooms U m asset) i =
            Some {| modelId := "urn:adsk.dtm:" ++ b;
                    roomId := nth_error ks i |}) as Hnth.
  { intros i b Hb.
    assert (i < length ms) as Hi by (apply nth_error_Some; congruence).
    rewrite PassFacts.assetRooms_xref by assumption. rewrite Hdec. simpl.
    rewrite PassFacts.nth_error_map_seq by assumption.
    now rewrite (nth_error_nth _ _ _ Hb). }
  split; [|split].
  - rewrite PassFacts.assetRooms_xref by assumption. rewrite Hdec. simpl.
    now rewrite length_map, length_seq.
  - exact Hnth.
  - intros Hlen. apply step_asset_appends. unfold named_rooms.
    rewrite (@JSFacts.new_Set_In _ String.eqb String.eqb_eq).
    destruct (nth_error ms (length ks)) as [b|] eqn:Hb.
    + apply Hnth in Hb.
      assert (nth_error ks (length ks) = None) as Hk
        by (apply nth_error_None; lia).
      rewrite Hk in Hb. apply nth_error_In in Hb.
      exact (in_map (fun x => JS.prop_key (roomId x)) _ _ Hb).
    + apply nth_error_None in Hb. lia.
Qed.

Lemma level_requests_of_run (urn : string) (ids : list JS.value) :
  In (TandemClient.getElements_request urn ids
        (TandemClient.getElements_default U)) (snd run) ->
  In urn (modelIds_of (pending U found)) /\
  ids = levelIds_of U (rooms_of U be (pending U found) urn) /\
  ids <> [].
Proof.
  rewrite PassFacts.main_trace.
  unfold TandemClient.getElements_request at 1.
  intros [H|H]; [discriminate|].
  apply in_app_or in H. destruct H as [H|H].
  - unfold asset_requests in H. apply in_map_iff in H.
    destruct H as (link & E & _). discriminate.
  - apply in_flat_map in H. destruct H as (m & Hm & H).
    unfold requests_of in H. destruct H as [H|H].
    + unfold room_request, TandemClient.getElements_request,
        TandemClient.getElements_default, room_families in H.
      inversion H.
    + destruct (Nat.ltb 0 (length (levelIds_of U
                  (rooms_of U be (pending U found) m)))) eqn:E;
        [|contradiction].
      destruct H as [H|[]].
      unfold level_request, TandemClient.getElements_request in H.
      inversion H; subst. split; [assumption | split; [reflexivity|]].
      apply Nat.ltb_lt in E. intros H0. rewrite H0 in E. simpl in E. lia.
Qed.

Lemma is_level_request_rooms (p : list RoomRef) (m : string) :
  is_level_request U (room_request U p m) = false.
Proof.
  unfold is_level_request, room_request, TandemClient.getElements_request,
    TandemClient.getElements_default, room_families.
  cbn [keys families].
  match goal with
  | |- context [list_eq_dec ?d ?a ?b] => destruct (list_eq_dec d a b)
  end; [discriminate | reflexivity].
Qed.

Lemma is_level_request_levels (p : list RoomRef) (m : string) :
  is_level_request U (level_request U be p m) = true.
Proof.
  unfold is_level_request, level_request, TandemClient.getElements_request.
  cbn [keys families].
  match goal with
  | |- context [list_eq_dec ?d ?a ?b] => destruct (list_eq_dec d a b)
  end; congruence.
Qed.

Lemma level_requests_of_pass2 (p : list RoomRef) (ms : list string) :
  filter (is_level_request U) (flat_map (requests_of U be p) ms) =
  flat_map
    (fun m =>
       if Nat.ltb 0 (length (levelIds_of U (rooms_of U be p m)))
       then [level_request U be p m] else [])
    ms.
Proof.
  induction ms as [|m ms IH]; auto.
  cbn [flat_map]. rewrite filter_app, IH. unfold requests_of.
  cbn [filter]. rewrite is_level_request_rooms.
  destruct (Nat.ltb 0 (length (levelIds_of U (rooms_of U be p m)))).
  - cbn [filter]. now rewrite is_level_request_levels.
  - reflexivity.
Qed.

Lemma level_requests_of_pass1 (f : Facility.t) :
  filter (is_level_request U) (asset_requests U FACILITY_URN f) = [].
Proof.
  unfold asset_requests.
  induction (scanned_links FACILITY_URN f) as [|link ls IH]; auto.
Qed.

Lemma levels_stored (m : string) (level : Element) :
  In m (modelIds_of (pending U found)) ->
  In level (levels_of U be (pending U found) m) ->
  JS.get (levels (fst run)) (assetKey_of U level) <> None.
Proof.
  intros Hm Hl H. apply JSFacts.get_None in H. apply H.
  rewrite PassFacts.main_eq. simpl. unfold room_set.
  apply (JSFacts.keys_fold_set (assetKey_of U) (fun x => x)).
  right. apply in_map. apply in_flat_map. exists m. auto.
Qed.

(** C7, as the program has it.  STEP 6 reads the level of a room from
    the reference within the model alone: a room without it gets no
    level, whatever else it carries; every entry of [data.roomLevelMap]
    is that reference of a room returned for one of the models of
    [modelIds], under the full key of the room; and every request for
    levels goes to one of those models, the one whose rooms were just
    gone through, asking for the level references of those rooms, each
    once, there being at least one.  The requests for levels of the run
    are, in the order of [modelIds], one for each model whose returned
    rooms carry a level reference, and none for the others; such a model
    is sent its request, and every element the request returns is kept in
    [data.levels] under its full key. *)
Theorem level_read_within_room_model :
  (forall acc room owning,
     roomLevelMap (fst (step_room U acc room)) =
     match code_normalizeLevelRef U room owning with
     | Some (_, levelKey) =>
         JS.set (roomLevelMap (fst acc)) (assetKey_of U room) levelKey
     | None => roomLevelMap (fst acc)
     end) /\
  (forall room owning,
     JS.truthy (JS.get room (QC_Level U)) = false ->
     code_normalizeLevelRef U room owning = None) /\
  (forall k v,
     JS.get (roomLevelMap (fst run)) k = Some v ->
     exists m room,
       In m (modelIds_of (pending U found)) /\
       In room (rooms_of U be (pending U found) m) /\
       code_normalizeLevelRef U room m = Some (m, v) /\
       k = assetKey_of U room) /\
  (forall urn ids,
     In (TandemClient.getElements_request urn ids
           (TandemClient.getElements_default U)) (snd run) ->
     In urn (modelIds_of (pending U found)) /\
     ids = levelIds_of U (rooms_of U be (pending U found) urn) /\
     ids <> []) /\
  (forall m,
     NoDup (levelIds_of U (rooms_of U be (pending U found) m)) /\
     forall k,
       In k (levelIds_of U (rooms_of U be (pending U found) m)) <->
       exists room,
         In room (rooms_of U be (pending U found) m) /\
         JS.truthy (levelRef_of U room) = true /\
         k = levelRef_of U room) /\
  filter (is_level_request U) (snd run) =
    flat_map
      (fun m =>
         if Nat.ltb 0
              (length (levelIds_of U (rooms_of U be (pending U found) m)))
         then [TandemClient.getElements_request m
                 (levelIds_of U (rooms_of U be (pending U found) m))
                 (TandemClient.getElements_default U)]
         else [])
      (modelIds_of (pending U found)) /\
  (forall m,
     In m (modelIds_of (pending U found)) ->
     levelIds_of U (rooms_of U be (pending U found) m) <> [] ->
     In (TandemClient.getElements_request m
           (levelIds_of U (rooms_of U be (pending U found) m))
           (TandemClient.getElements_default U)) (snd run) /\
     forall level,
       In level
          (TandemClient.getElements be m
             (levelIds_of U (rooms_of U be (pending U found) m))
             (TandemClient.getElements_default U)) ->
       JS.get (levels (fst run)) (assetKey_of U level) <> None).
Proof.
  assert (filter (is_level_request U) (snd run) =
          flat_map
            (fun m =>
               if Nat.ltb 0
                    (length (levelIds_of U
                               (rooms_of U be (pending U found) m)))
               then [level_request U be (pending U found) m] else [])
            (modelIds_of (pending U found))) as Hreq.
  { rewrite PassFacts.main_trace. cbn [filter].
    unfold TandemClient.getFacility_request at 1. cbn [is_level_request].
    rewrite filter_app, level_requests_of_pass1, level_requests_of_pass2.
    reflexivity. }
  split; [|split; [|split; [|split; [|split; [|split]]]]];
    [| | | | | exact Hreq |].
  6: {
    intros m Hm Hne.
    assert (Nat.ltb 0
              (length (levelIds_of U (rooms_of U be (pending U found) m)))
            = true) as Hlt.
    { apply Nat.ltb_lt.
      destruct (levelIds_of U (rooms_of U be (pending U found) m));
        [congruence | simpl; lia]. }
    split.
    - assert (In (level_request U be (pending U found) m)
                (filter (is_level_request U) (snd run))) as Hin.
      { rewrite Hreq. apply in_flat_map. exists m. split; [assumption|].
        rewrite Hlt. now left. }
      apply filter_In in Hin. exact (proj1 Hin).
    - intros level Hl. apply (@levels_stored m level Hm).
      unfold levels_of. now rewrite Hlt. }
  - intros [d ls] room owning. rewrite PassFacts.step_room_eq.
    unfold after_rooms, code_normalizeLevelRef, level_link. simpl.
    destruct (JS.truthy (levelRef_of U room)); reflexivity.
  - intros room owning H. unfold code_normalizeLevelRef, levelRef_of.
    now rewrite H.
  - intros k v. rewrite PassFacts.main_roomLevelMap,
      PassFacts.level_link_filter.
    intros H.
    apply (JSFacts.get_fold_set_Some (assetKey_of U)
             (fun room => toFullKey U (levelRef_of U room))) in H.
    destruct H as [H|(room & Hin & Hk & Hv)]; [discriminate|].
    apply filter_In in Hin. destruct Hin as [Hin Ht].
    apply in_flat_map in Hin. destruct Hin as (m & Hm & Hin).
    exists m, room. unfold code_normalizeLevelRef. rewrite Ht, Hv. auto.
  - apply level_requests_of_run.
  - intros m. unfold levelIds_of. split.
    + apply (@JSFacts.new_Set_NoDup _ JS.value_eqb JSFacts.value_eqb_eq).
    + intros k.
      rewrite (@JSFacts.new_Set_In _ JS.value_eqb JSFacts.value_eqb_eq).
      rewrite filter_In, in_map_iff. split.
      * intros [(room & E & Hin) Ht]. exists room. subst k. auto.
      * intros (room & Hin & Ht & ->). split; [eauto | assumption].
Qed.

(** C9.  Granted that the decoder answers an absent text with two empty
    arrays: an asset with neither the room reference within its model nor
    the cross-model one has an empty [assetRooms], and going through it
    leaves [data.roomAssetsMap] and [modelRooms] as they were. *)
Theorem no_reference_no_rooms (m : string) (st : Env) (asset : Element) :
  absent_xref_decodes_to_nothing U ->
  JS.get asset (QC_Rooms U) = None ->
  JS.get asset (QC_XRooms U) = None ->
  assetRooms U m asset = [] /\
  roomAssetsMap (data (step_asset U m st asset)) =
    roomAssetsMap (data st) /\
  modelRooms (step_asset U m st asset) = modelRooms st.
Proof.
  unfold absent_xref_decodes_to_nothing. intros Hdec Hr Hx.
  assert (assetRooms U m asset = []) as E.
  { unfold assetRooms. rewrite Hr, Hx, Hdec. reflexivity. }
  split; [exact E|]. unfold step_asset. rewrite E. simpl.
  now rewrite app_nil_r.
Qed.

(** C10, as the program has it.  The property names of
    [data.roomAssetsMap] are the room ids of the entries of [modelRooms],
    those of [data.roomLevelMap] the full keys of the rooms returned with
    a level reference: element keys, in which the model takes no part; the
    bucket an entry goes to is the same whatever its model id. *)
Theorem map_keys_leave_out_the_model :
  (forall k,
     In k (JS.keys (roomAssetsMap (fst run))) <->
     exists x, In x (pending U found) /\ k = JS.prop_key (roomId x)) /\
  (forall k,
     In k (JS.keys (roomLevelMap (fst run))) <->
     exists room,
       In room fetched_rooms /\ JS.truthy (levelRef_of U room) = true /\
       k = toFullKey U (JS.get room (QC_Key U))) /\
  (forall assetKey o x m,
     link_room assetKey o {| modelId := m; roomId := roomId x |} =
     link_room assetKey o x).
Proof.
  split; [|split].
  - intros k.
    assert (In k (JS.keys (roomAssetsMap (fst run))) <->
            In k (map fst (edges U found))) as ->.
    { pose proof (JSFacts.get_None (roomAssetsMap (fst run)) k) as Hn.
      pose proof (discovered_nil k (edges U found)) as Hd.
      rewrite run_bucket in Hn.
      destruct (discovered k (edges U found)) as [|a l].
      - split; [intros H; exfalso | intros H; exfalso].
        + now apply Hn in H.
        + now apply Hd in H.
      - split; intros _.
        + destruct (in_dec string_dec k (map fst (edges U found)))
            as [Hin|Hout]; auto.
          apply Hd in Hout. discriminate.
        + destruct (in_dec string_dec k
                      (JS.keys (roomAssetsMap (fst run)))) as [Hin|Hout];
            auto.
          apply Hn in Hout. discriminate. }
    rewrite edges_pending, in_map_iff.
    split; intros (x & H1 & H2); exists x; auto.
  - apply run_roomLevelMap_keys.
  - reflexivity.
Qed.

End Claims.

(** ** The properties on the small service *)

Section Scenarios.

Local Abbreviation model_A := "urn:adsk.dtm:A".
Local Abbreviation model_B := "urn:adsk.dtm:B".
Local Abbreviation model_C := "urn:adsk.dtm:C".

Example run_two_models :
  main Demo.utils Demo.two_models Demo.facility_urn =
  ({| levels := [("F.l1", [("k", "l1"); ("n:n", "first floor")])];
      rooms := [("F.r1", [("k", "r1"); ("n:n", "hall")])];
      assets :=
        [("F.a1", [("k", "a1"); ("n:n", "pump"); ("z:a", "1");
                   ("x:r", "B,C|F.r1,F.r1")])];
      roomAssetsMap := [("F.r1", ["F.a1"; "F.a1"])];
      roomLevelMap := [("F.r1", "F.l1")] |},
   [GetTwin "urn:adsk.dtt:fac";
    PostScan model_A {| families := ["n"; "z"; "l"; "x"]; keys := None |};
    PostScan model_B
      {| families := ["n"; "l"]; keys := Some [Some "F.r1"] |};
    PostScan model_B {| families := ["n"]; keys := Some [Some "l1"] |};
    PostScan model_C
      {| families := ["n"; "l"]; keys := Some [Some "F.r1"] |}]).
Proof. reflexivity. Qed.

Example isDefaultModel_facility :
  isDefaultModel "urn:adsk.dtt:fac" "urn:adsk.dtm:fac" = true /\
  isDefaultModel "urn:adsk.dtt:fac" model_A = false /\
  isDefaultModel "YOUR_FACILITY_URN" "YOUR_FACILITY_URN" = true.
Proof. repeat split. Qed.

Example listing_two_models :
  listing Demo.utils
    (fst (main Demo.utils Demo.two_models Demo.facility_urn)) =
  (["facility data list"; "first floor"; "  hall"; "    pump"; "    pump"],
   None).
Proof. reflexivity. Qed.

Example listing_dangling :
  listing Demo.utils
    (fst (main Demo.utils Demo.dangling Demo.facility_urn)) =
  (["facility data list"; "first floor"; "  lab"; "    pump"], None) /\
  getLevels (fst (main Demo.utils Demo.dangling Demo.facility_urn)) =
  [("F.l1", Some [("k", "l1"); ("n:n", "first floor")])] /\
  getRoomsByLevel (fst (main Demo.utils Demo.dangling Demo.facility_urn))
    (Some "F.l1") =
  [("F.r1", Some [("k", "r1"); ("n:n", "lab"); ("l:l", "l1")])].
Proof. repeat split. Qed.

(** C1 on the asset of model A that refers to rooms of B and C. *)
Lemma xref_room_fetched_from_its_model_witness :
  nth_error
    (assetRooms Demo.utils model_A
       [("k", "a1"); ("n:n", "pump"); ("z:a", "1");
        ("x:r", "B,C|F.r1,F.r1")]) 0 =
    Some {| modelId := model_B; roomId := Some "F.r1" |} /\
  exists ids,
    In (Some "F.r1") ids /\
    In (TandemClient.getElements_request model_B ids
          (room_families Demo.utils))
       (snd (main Demo.utils Demo.two_models Demo.facility_urn)).
Proof.
  apply (@xref_room_fetched_from_its_model Demo.utils Demo.two_models
           Demo.facility_urn {| Facility.modelId := model_A |}
           [("k", "a1"); ("n:n", "pump"); ("z:a", "1");
            ("x:r", "B,C|F.r1,F.r1")]
           ["B"; "C"] ["F.r1"; "F.r1"] 0 "B").
  - simpl. auto.
  - reflexivity.
  - simpl. auto.
  - reflexivity.
  - reflexivity.
  - reflexivity.
Defined.


(** C6: two model ids and one key give two entries, the second with an
    undefined room id; its bucket is named [undefined] and model C is
    asked for the key [undefined]. *)
Lemma unequal_xref_arrays_not_skipped :
  JS.truthy
    (JS.get [("k", "a1"); ("n:n", "pump"); ("z:a", "1");
             ("x:r", "B,C|F.r1")] (QC_Rooms Demo.utils)) = false /\
  fromXrefKeyArray Demo.utils
    (JS.get [("k", "a1"); ("n:n", "pump"); ("z:a", "1");
             ("x:r", "B,C|F.r1")] (QC_XRooms Demo.utils)) =
    (["B"; "C"], ["F.r1"]) /\
  assetRooms Demo.utils model_A
    [("k", "a1"); ("n:n", "pump"); ("z:a", "1"); ("x:r", "B,C|F.r1")] =
    [{| modelId := model_B; roomId := Some "F.r1" |};
     {| modelId := model_C; roomId := None |}] /\
  roomAssetsMap (fst (main Demo.utils Demo.unequal Demo.facility_urn)) =
    [("F.r1", ["F.a1"]); ("undefined", ["F.a1"])] /\
  snd (main Demo.utils Demo.unequal Demo.facility_urn) =
    [GetTwin "urn:adsk.dtt:fac";
     PostScan model_A {| families := ["n"; "z"; "l"; "x"]; keys := None |};
     PostScan model_B
       {| families := ["n"; "l"]; keys := Some [Some "F.r1"] |};
     PostScan model_C {| families := ["n"; "l"]; keys := Some [None] |}].
Proof. repeat split. Qed.

Lemma xref_arrays_paired_by_model_id_witness :
  let asset :=
    [("k", "a1"); ("n:n", "pump"); ("z:a", "1"); ("x:r", "B,C|F.r1")] in
  let st :=
    {| data := empty_data; modelRooms := []; trace := [] |} in
  length (assetRooms Demo.utils model_A asset) = 2 /\
  (forall i b,
     nth_error ["B"; "C"] i = Some b ->
     nth_error (assetRooms Demo.utils model_A asset) i =
     Some {| modelId := "urn:adsk.dtm:" ++ b;
             roomId := nth_error ["F.r1"] i |}) /\
  (1 < 2 ->
   exists ids,
     JS.get (roomAssetsMap (data (step_asset Demo.utils model_A st asset)))
            "undefined" = Some ids /\
     In (assetKey_of Demo.utils asset) ids).
Proof.
  intros asset st.
  apply (@xref_arrays_paired_by_model_id Demo.utils model_A st asset
           ["B"; "C"] ["F.r1"]); reflexivity.
Defined.

(** C7: the room of model B refers to a level of model C across models.
    Worded as for rooms that is a level reference of the room; the
    program, handed the whole element, reads none, and in the run it asks
    for the rooms without the cross-model family, records no level and
    sends nothing to model C. *)
Lemma xref_level_not_followed :
  spec_normalizeLevelRef Demo.utils "x:l"
    [("k", "r1"); ("n:n", "lab"); ("x:l", "C|F.l1")] model_B =
    Some (model_C, "F.l1") /\
  code_normalizeLevelRef Demo.utils
    [("k", "r1"); ("n:n", "lab"); ("x:l", "C|F.l1")] model_B = None /\
  room_families Demo.utils = ["n"; "l"] /\
  rooms (fst (main Demo.utils Demo.xref_level Demo.facility_urn)) =
    [("F.r1", [("k", "r1"); ("n:n", "lab")])] /\
  roomLevelMap (fst (main Demo.utils Demo.xref_level Demo.facility_urn)) =
    [] /\
  levels (fst (main Demo.utils Demo.xref_level Demo.facility_urn)) = [] /\
  snd (main Demo.utils Demo.xref_level Demo.facility_urn) =
    [GetTwin "urn:adsk.dtt:fac";
     PostScan model_A {| families := ["n"; "z"; "l"; "x"]; keys := None |};
     PostScan model_B
       {| families := ["n"; "l"]; keys := Some [Some "F.r1"] |}].
Proof. repeat split. Qed.



(** C9 on an asset with no room reference. *)
Lemma no_reference_no_rooms_witness :
  let asset := [("k", "a1"); ("n:n", "pump"); ("z:a", "1")] in
  let st :=
    {| data := empty_data; modelRooms := []; trace := [] |} in
  assetRooms Demo.utils model_A asset = [] /\
  roomAssetsMap (data (step_asset Demo.utils model_A st asset)) = [] /\
  modelRooms (step_asset Demo.utils model_A st asset) = [].
Proof.
  intros asset st.
  apply (@no_reference_no_rooms Demo.utils model_A st asset); reflexivity.
Defined.

(** C10: the rooms [r1] of model B and [r1] of model C are two rooms; the
    asset that refers to both is put twice in the one bucket [F.r1], and
    [data.rooms] keeps one of the two rooms under that name, with the
    level of the other. *)
Lemma same_key_rooms_share_a_bucket :
  assetRooms Demo.utils model_A
    [("k", "a1"); ("n:n", "pump"); ("z:a", "1");
     ("x:r", "B,C|F.r1,F.r1")] =
    [{| modelId := model_B; roomId := Some "F.r1" |};
     {| modelId := model_C; roomId := Some "F.r1" |}] /\
  model_B <> model_C /\
  roomAssetsMap (fst (main Demo.utils Demo.two_models Demo.facility_urn)) =
    [("F.r1", ["F.a1"; "F.a1"])] /\
  rooms (fst (main Demo.utils Demo.two_models Demo.facility_urn)) =
    [("F.r1", [("k", "r1"); ("n:n", "hall")])] /\
  roomLevelMap (fst (main Demo.utils Demo.two_models Demo.facility_urn)) =
    [("F.r1", "F.l1")].
Proof. repeat split. discriminate. Qed.


(** C8 on the run with one bucket, [F.r1]. *)
Lemma getAssetsByRoom_throws_on_unrecorded_witness :
  let data := fst (main Demo.utils Demo.two_models Demo.facility_urn) in
  getAssetsByRoom data (Some "F.r9") =
    JS.Throw (JS.TypeError "assetKeys is not iterable") /\
  getAssetsByRoom data (Some "F.r1") =
    JS.Ok [("F.a1", JS.get (assets data) "F.a1");
           ("F.a1", JS.get (assets data) "F.a1")] /\
  getAssetsByRoom (set_roomAssetsMap data [("F.r9", [])]) (Some "F.r9") =
    JS.Ok [].
Proof.
  intros data.
  destruct (@getAssetsByRoom_throws_on_unrecorded Demo.utils
              Demo.two_models Demo.facility_urn) as (H1 & H2 & H3).
  split; [|split].
  - apply H1. vm_compute. intros [H|[H|[]]]; discriminate.
  - apply (H2 (Some "F.r1")). vm_compute. auto.
  - apply H3. reflexivity.
Defined.

End Scenarios.

(** * Further properties of the program *)

(** ** Strings *)

Module StringFacts.

Lemma prefix_append (p r : string) : String.prefix p (p ++ r) = true.
Proof.
  induction p as [|c p IH]; simpl.
  - now destruct r.
  - destruct (ascii_dec c c); [exact IH | congruence].
Qed.

Lemma substring_all (s : string) : String.substring 0 (String.length s) s = s.
Proof. induction s as [|c s IH]; simpl; [reflexivity | now rewrite IH]. Qed.

Lemma substring_after (p r : string) :
  String.substring (String.length p)
    (String.length (p ++ r) - String.length p) (p ++ r) = r.
Proof.
  induction p as [|c p IH]; simpl.
  - rewrite Nat.sub_0_r. apply substring_all.
  - exact IH.
Qed.

Lemma replace_unfold (pat rep s : string) :
  JS.replace pat rep s =
  if String.prefix pat s
  then (rep ++ String.substring (String.length pat)
                 (String.length s - String.length pat) s)%string
  else match s with
       | EmptyString => EmptyString
       | String c s' => String c (JS.replace pat rep s')
       end.
Proof. destruct s; reflexivity. Qed.

(** The pattern at the head of the string is the occurrence replaced,
    whatever follows. *)
Lemma replace_at_head (pat rep rest : string) :
  JS.replace pat rep (pat ++ rest) = (rep ++ rest)%string.
Proof.
  rewrite replace_unfold, prefix_append, substring_after. reflexivity.
Qed.

Lemma includes_unfold (pat s : string) :
  JS.includes pat s =
  if String.prefix pat s then true
  else match s with
       | EmptyString => false
       | String _ s' => JS.includes pat s'
       end.
Proof. destruct s; reflexivity. Qed.

(** Without an occurrence of the pattern the string is returned as it
    is. *)
Lemma replace_absent (pat rep s : string) :
  JS.includes pat s = false -> JS.replace pat rep s = s.
Proof.
  induction s as [|c s IH]; intros H; rewrite includes_unfold in H;
    rewrite replace_unfold.
  - destruct (String.prefix pat ""); [discriminate | reflexivity].
  - destruct (String.prefix pat (String c s)); [discriminate|].
    now rewrite IH.
Qed.

Lemma append_assoc (a b c : string) :
  ((a ++ b) ++ c = a ++ (b ++ c))%string.
Proof. induction a as [|x a IH]; simpl; [reflexivity | now rewrite IH]. Qed.

Lemma prefix_split (p s : string) :
  String.prefix p s = true <-> exists rest, s = (p ++ rest)%string.
Proof.
  split.
  - revert s. induction p as [|c p IH]; intros s H.
    + exists s. reflexivity.
    + destruct s as [|c' s]; simpl in H; [discriminate|].
      destruct (ascii_dec c c'); [|discriminate]. subst c'.
      destruct (IH s H) as (rest & ->). exists rest. reflexivity.
  - intros (rest & ->). apply prefix_append.
Qed.

End StringFacts.

Section DefaultModel.

(** X1. For a facility identifier that begins with [urn:adsk.dtt:] the
    default model is the identifier with that head replaced by
    [urn:adsk.dtm:], whatever follows it. *)
Theorem isDefaultModel_of_twin_urn (x m : string) :
  isDefaultModel ("urn:adsk.dtt:" ++ x) m = true <->
  m = ("urn:adsk.dtm:" ++ x)%string.
Proof.
  unfold isDefaultModel. rewrite StringFacts.replace_at_head.
  rewrite String.eqb_eq. split; congruence.
Qed.

(** X2. For a facility identifier in which [urn:adsk.dtt:] does not
    occur (such as the placeholder the file ships with), the only model
    taken for the default model is the one whose identifier is the
    facility identifier itself. *)
Theorem isDefaultModel_without_twin_urn (facilityId m : string) :
  JS.includes "urn:adsk.dtt:" facilityId = false ->
  (isDefaultModel facilityId m = true <-> m = facilityId).
Proof.
  intros H. unfold isDefaultModel. rewrite StringFacts.replace_absent by exact H.
  rewrite String.eqb_eq. split; congruence.
Qed.

End DefaultModel.

(** ** Objects written to more than once *)

Module ObjFacts.
Import JS.

Section Writes.
Variables (X V : Type) (kf : X -> string) (vf : X -> V).

Local Abbreviation write_all :=
  (fold_left (fun (o : obj V) (x : X) => set o (kf x) (vf x))).

(** After a run of writes a property holds what the last write to it
    put there, and what it held before when none wrote to it. *)
Lemma get_fold_set_last (l : list X) (o : obj V) (k : string) :
  get (write_all l o) k =
  match find (fun x => String.eqb (kf x) k) (rev l) with
  | Some x => Some (vf x)
  | None => get o k
  end.
Proof.
  induction l as [|x l IH] using rev_ind.
  - reflexivity.
  - rewrite fold_left_app, rev_app_distr. simpl.
    rewrite JSFacts.get_set.
    destruct (String.eqb (kf x) k); [reflexivity | exact IH].
Qed.

Lemma keys_set_present (o : obj V) (k : string) (v : V) :
  In k (keys o) -> keys (set o k v) = keys o.
Proof.
  induction o as [|[k0 v0] o IH]; simpl; [contradiction|].
  intros H. destruct (String.eqb k0 k) eqn:E; simpl; [reflexivity|].
  f_equal. apply IH. destruct H as [H|H]; [|assumption].
  apply String.eqb_neq in E. congruence.
Qed.

Lemma keys_fold_set_present (l : list X) (o : obj V) :
  (forall x, In x l -> In (kf x) (keys o)) ->
  keys (write_all l o) = keys o.
Proof.
  revert o. induction l as [|x l IH]; intros o H; simpl; [reflexivity|].
  rewrite IH.
  - apply keys_set_present. apply H. now left.
  - intros y Hy. apply JSFacts.keys_set. right. apply H. now right.
Qed.

(** Two objects with the same property names in the same order, each
    once, and the same value at every name are the same object. *)
Lemma obj_ext (o1 o2 : obj V) :
  NoDup (keys o1) -> keys o1 = keys o2 ->
  (forall k, get o1 k = get o2 k) -> o1 = o2.
Proof.
  revert o2. induction o1 as [|[k1 v1] o1 IH]; intros [|[k2 v2] o2];
    simpl; intros Hnd Hk Hg; try discriminate; [reflexivity|].
  inversion Hk as [[Hk1 Hk2]]. subst k2.
  inversion Hnd as [|? ? Hout Hnd']; subst.
  pose proof (Hg k1) as H1. rewrite String.eqb_refl in H1.
  inversion H1; subst v2. f_equal.
  apply IH; [assumption | assumption|].
  intros k. pose proof (Hg k) as H.
  destruct (String.eqb k1 k) eqn:E; [|exact H].
  apply String.eqb_eq in E. subst k.
  assert (get o1 k1 = None) as -> by now apply JSFacts.get_None.
  symmetry. apply JSFacts.get_None. now rewrite <- Hk2.
Qed.

(** Doing the same writes a second time changes nothing. *)
Lemma write_all_twice (l : list X) (o : obj V) :
  NoDup (keys o) -> write_all l (write_all l o) = write_all l o.
Proof.
  intros Hnd. apply obj_ext.
  - now do 2 apply JSFacts.keys_fold_set_NoDup.
  - apply keys_fold_set_present. intros x Hx.
    apply JSFacts.keys_fold_set. right. now apply in_map.
  - intros k. rewrite (get_fold_set_last l (write_all l o)).
    destruct (find (fun x => String.eqb (kf x) k) (rev l)) as [x|] eqn:E;
      [|reflexivity].
    now rewrite get_fold_set_last, E.
Qed.

End Writes.
End ObjFacts.

(** ** The client and the two passes *)

Section Extras.
Variable U : Utils.
Variable be : Backend.
Variable FACILITY_URN : string.

Local Abbreviation facility := (TandemClient.getFacility be FACILITY_URN).
Local Abbreviation found := (scanned U be FACILITY_URN facility).
Local Abbreviation run := (main U be FACILITY_URN).
Local Abbreviation todo := (pending U found).
Local Abbreviation fetched_rooms :=
  (flat_map (rooms_of U be todo) (modelIds_of todo)).
Local Abbreviation fetched_levels :=
  (flat_map (levels_of U be todo) (modelIds_of todo)).

Lemma has_userProps_true (item : Element) :
  TandemClient.has_userProps U item = true <->
  exists name,
    In name (JS.keys item) /\
    String.prefix (CF_DtProperties U ++ ":") name = true.
Proof.
  unfold TandemClient.has_userProps. rewrite negb_true_iff, Nat.eqb_neq.
  split.
  - intros H.
    destruct (filter (fun k => String.prefix (CF_DtProperties U ++ ":") k)
                (JS.keys item)) as [|name l] eqn:E; [now elim H|].
    exists name. apply (filter_In
      (fun k => String.prefix (CF_DtProperties U ++ ":") k)).
    rewrite E. now left.
  - intros (name & Hin & Hp) H. apply length_zero_iff_nil in H.
    assert (In name
              (filter (fun k => String.prefix (CF_DtProperties U ++ ":") k)
                 (JS.keys item))) as Hf by (apply filter_In; auto).
    now rewrite H in Hf.
Qed.

(** X3. [getTaggedAssets] returns, of the elements the scan of the model
    returns, exactly those with at least one property whose name is the
    custom-property family, a colon, and anything after it. *)
Theorem getTaggedAssets_selects_tagged
    (urn : string) (columnFamilies : list string) (item : Element) :
  In item (TandemClient.getTaggedAssets U be urn columnFamilies) <->
  In item (scan be urn {| families := columnFamilies; keys := None |}) /\
  exists name rest,
    In name (JS.keys item) /\
    name = (CF_DtProperties U ++ ":" ++ rest)%string.
Proof.
  unfold TandemClient.getTaggedAssets. rewrite filter_In, has_userProps_true.
  split; intros (Hin & H); (split; [exact Hin|]).
  - destruct H as (name & Hn & Hp). apply StringFacts.prefix_split in Hp.
    destruct Hp as (rest & Hp). exists name, rest. split; [assumption|].
    rewrite Hp. apply StringFacts.append_assoc.
  - destruct H as (name & rest & Hn & E). exists name. split; [assumption|].
    apply StringFacts.prefix_split. exists rest. rewrite E.
    symmetry. apply StringFacts.append_assoc.
Qed.

(** X4. An asset with a room reference within its model: the cross-model
    reference is not read; every entry of [assetRooms] carries the model
    the asset was scanned from and the full key of a decoded short key;
    and STEP 6 asks that same model for that key. *)
Theorem same_model_room_fetched_from_asset_model
    (link : Facility.Link) (asset : Element) (shortKey : string) :
  In link (Facility.links facility) ->
  isDefaultModel FACILITY_URN (Facility.modelId link) = false ->
  In asset (TandemClient.getTaggedAssets U be (Facility.modelId link)
              (asset_families U)) ->
  JS.truthy (JS.get asset (QC_Rooms U)) = true ->
  In shortKey (fromShortKeyArray U (JS.get asset (QC_Rooms U))) ->
  (forall x,
     In x (assetRooms U (Facility.modelId link) asset) ->
     modelId x = Facility.modelId link) /\
  (forall other,
     JS.get other (QC_Rooms U) = JS.get asset (QC_Rooms U) ->
     assetRooms U (Facility.modelId link) other =
     assetRooms U (Facility.modelId link) asset) /\
  exists ids,
    In (Some (toFullKey U (Some shortKey))) ids /\
    In (TandemClient.getElements_request (Facility.modelId link) ids
          (room_families U))
       (snd run).
Proof.
  intros Hlink Hdef Hasset Hsame Hkey.
  split; [|split].
  - intros x. rewrite PassFacts.assetRooms_same by assumption.
    rewrite in_map_iff. intros (k & <- & _). reflexivity.
  - intros other E. unfold assetRooms. rewrite E, Hsame. reflexivity.
  - assert (In {| modelId := Facility.modelId link;
                  roomId := Some (toFullKey U (Some shortKey)) |} todo)
      as Hp.
    { apply PassFacts.In_pending. exists (Facility.modelId link), asset.
      split.
      - apply PassFacts.In_scanned. exists link. auto.
      - rewrite PassFacts.assetRooms_same by assumption.
        apply in_map_iff. exists shortKey. auto. }
    destruct (PassFacts.pending_requested U be _ _ Hp) as (_ & Hid & Hreq).
    simpl in Hid, Hreq.
    exists (roomIds_of todo (Facility.modelId link)).
    split; [exact Hid|].
    rewrite PassFacts.main_trace. right. apply in_or_app. now right.
Qed.

Lemma roomIds_of_nonempty (m : string) :
  In m (modelIds_of todo) -> roomIds_of todo m <> [].
Proof.
  unfold modelIds_of.
  rewrite (@JSFacts.new_Set_In _ String.eqb String.eqb_eq), in_map_iff.
  intros (x & <- & Hx) H.
  destruct (PassFacts.pending_requested U be _ _ Hx) as (_ & Hid & _).
  now rewrite H in Hid.
Qed.

(** X5. No scan is ever sent with an empty list of keys: a scan for
    rooms goes to a model only with the room ids pending for it, of which
    there is at least one, and a scan for levels is sent only when some
    room returned carries a level reference. *)
Theorem no_request_with_empty_keys (urn : string) (inputs : ScanInputs) :
  In (PostScan urn inputs) (snd run) -> keys inputs <> Some [].
Proof.
  rewrite PassFacts.main_trace. intros [H|H]; [discriminate|].
  apply in_app_or in H. destruct H as [H|H].
  - unfold asset_requests in H. apply in_map_iff in H.
    destruct H as (link & E & _).
    unfold TandemClient.getTaggedAssets_request in E.
    inversion E; subst. discriminate.
  - apply in_flat_map in H. destruct H as (m & Hm & H).
    unfold requests_of in H. destruct H as [H|H].
    + unfold room_request, TandemClient.getElements_request in H.
      inversion H; subst. simpl. intros E. inversion E as [E'].
      now apply (@roomIds_of_nonempty _ Hm).
    + destruct (Nat.ltb 0 (length (levelIds_of U (rooms_of U be todo m))))
        eqn:L; [|contradiction].
      destruct H as [H|[]].
      unfold level_request, TandemClient.getElements_request in H.
      inversion H; subst. simpl. intros E. inversion E as [E'].
      rewrite E' in L. discriminate.
Qed.

Lemma requests_of_length (m : string) :
  length (requests_of U be todo m) <= 2.
Proof.
  unfold requests_of.
  destruct (Nat.ltb 0 (length (levelIds_of U (rooms_of U be todo m))));
    simpl; lia.
Qed.

Lemma flat_map_length_le (A B : Type) (f : A -> list B) (n : nat)
    (l : list A) :
  (forall x, length (f x) <= n) ->
  length (flat_map f l) <= n * length l.
Proof.
  intros H. induction l as [|x l IH]; simpl; [lia|].
  rewrite length_app. specialize (H x). nia.
Qed.

(** X6. The requests of a run, in order: the facility; one scan for
    assets per link that is not the default model, in the order of the
    links; then, model after model of [modelIds], the scan for its rooms,
    followed at once by the scan for its levels when there is one.  So
    their number is at most one, plus the number of links, plus twice the
    number of distinct models referred to, however many assets and
    references there are. *)
Theorem requests_in_order_and_bounded :
  snd run =
    TandemClient.getFacility_request FACILITY_URN ::
    map (fun link =>
           TandemClient.getTaggedAssets_request (Facility.modelId link)
             (asset_families U))
        (filter (fun link =>
                   negb (isDefaultModel FACILITY_URN (Facility.modelId link)))
                (Facility.links facility))
    ++ flat_map
         (fun m =>
            TandemClient.getElements_request m (roomIds_of todo m)
              (room_families U) ::
            (if Nat.ltb 0 (length (levelIds_of U (rooms_of U be todo m)))
             then [TandemClient.getElements_request m
                     (levelIds_of U (rooms_of U be todo m))
                     (TandemClient.getElements_default U)]
             else []))
         (modelIds_of todo) /\
  length (snd run) <=
    1 + length (Facility.links facility) + 2 * length (modelIds_of todo).
Proof.
  split.
  - apply PassFacts.main_trace.
  - rewrite PassFacts.main_trace. simpl. rewrite length_app.
    unfold asset_requests, scanned_links. rewrite length_map.
    pose proof (filter_length_le
                  (fun link =>
                     negb (isDefaultModel FACILITY_URN
                             (Facility.modelId link)))
                  (Facility.links facility)) as H1.
    pose proof (@flat_map_length_le _ _ (requests_of U be todo) 2
                  (modelIds_of todo) requests_of_length) as H2.
    lia.
Qed.


Lemma run_rooms_NoDup : NoDup (JS.keys (rooms (fst run))).
Proof.
  rewrite PassFacts.main_rooms.
  apply (JSFacts.keys_fold_set_NoDup (assetKey_of U) (fun room => room)).
  constructor.
Qed.

Lemma getRoomsByLevel_names (d : Data) (levelKey : JS.value) :
  map fst (getRoomsByLevel d levelKey) =
  filter (fun k => JS.value_eqb (JS.get (roomLevelMap d) k) levelKey)
         (JS.keys (rooms d)).
Proof.
  unfold getRoomsByLevel.
  induction (JS.keys (rooms d)) as [|k l IH]; [reflexivity|].
  simpl. destruct (JS.value_eqb (JS.get (roomLevelMap d) k) levelKey);
    simpl; now rewrite IH.
Qed.

Lemma getRoomsByLevel_In (d : Data) (levelKey : JS.value) (k : string)
    (r : option Element) :
  In (k, r) (getRoomsByLevel d levelKey) <->
  In k (JS.keys (rooms d)) /\
  JS.get (roomLevelMap d) k = levelKey /\
  r = JS.get (rooms d) k.
Proof.
  unfold getRoomsByLevel. rewrite in_flat_map. split.
  - intros (k' & Hk & H).
    destruct (JS.value_eqb (JS.get (roomLevelMap d) k') levelKey) eqn:E;
      simpl in H; [|contradiction].
    destruct H as [H|[]]. inversion H; subst.
    apply JSFacts.value_eqb_eq in E. auto.
  - intros (Hk & Hl & ->). exists k. split; [assumption|].
    apply JSFacts.value_eqb_eq in Hl. rewrite Hl. now left.
Qed.

(** X7. [getRoomsByLevel] at the end of a run: no room is yielded
    twice; a room with an entry in [data.roomLevelMap] is yielded for
    that level key; and what is yielded with a room key is never
    [undefined] but an element the scans for rooms returned, whose full
    key is that room key. *)
Theorem rooms_of_level_yielded_once (levelKey : JS.value) :
  NoDup (map fst (getRoomsByLevel (fst run) levelKey)) /\
  (forall k v,
     JS.get (roomLevelMap (fst run)) k = Some v ->
     In k (map fst (getRoomsByLevel (fst run) (Some v)))) /\
  (forall k r,
     In (k, r) (getRoomsByLevel (fst run) levelKey) ->
     exists room,
       r = Some room /\ In room fetched_rooms /\ assetKey_of U room = k).
Proof.
  split; [|split].
  - rewrite getRoomsByLevel_names. apply NoDup_filter, run_rooms_NoDup.
  - intros k v H. rewrite getRoomsByLevel_names. apply filter_In. split.
    + apply JSFacts.get_Some_In in H.
      apply run_roomLevelMap_keys in H. destruct H as (room & Hin & _ & E).
      apply run_rooms_keys. exists room. auto.
    + rewrite H. apply JSFacts.value_eqb_refl.
  - intros k r H. apply getRoomsByLevel_In in H.
    destruct H as (Hk & _ & ->).
    destruct (JS.get (rooms (fst run)) k) as [room|] eqn:E.
    + rewrite PassFacts.main_rooms in E.
      apply (JSFacts.get_fold_set_Some (assetKey_of U) (fun room => room))
        in E.
      destruct E as [E|(x & Hx & Hkx & ->)]; [discriminate|].
      exists room. auto.
    + apply JSFacts.get_None in E. contradiction.
Qed.

Lemma edge_asset_scanned (r k : string) :
  In (r, k) (edges U found) ->
  exists m asset,
    In (m, asset) found /\ assetKey_of U asset = k /\
    exists a, JS.get (assets (fst run)) k = Some a.
Proof.
  intros H. apply In_edges in H.
  destruct H as (m & asset & x & Hin & _ & _ & ->).
  exists m, asset. split; [assumption | split; [reflexivity|]].
  destruct (JS.get (assets (fst run)) (assetKey_of U asset)) as [a|] eqn:E;
    [eauto|].
  exfalso. apply JSFacts.get_None in E. apply E.
  rewrite PassFacts.main_assets. unfold asset_set.
  apply (JSFacts.keys_fold_set
           (fun ma : string * Element => assetKey_of U (snd ma))
           (fun ma : string * Element => snd ma)).
  right. apply in_map_iff. exists (m, asset). auto.
Qed.

(** X9. Whatever [getAssetsByRoom] yields at the end of a run when it
    does not throw, the asset that comes with an asset key is never
    [undefined]: it is a scanned asset with that full key. *)
Theorem assets_of_room_are_defined
    (roomKey : JS.value) (l : list (string * option Element))
    (k : string) (a : option Element) :
  getAssetsByRoom (fst run) roomKey = JS.Ok l ->
  In (k, a) l ->
  exists m asset,
    a = Some asset /\ In (m, asset) found /\ assetKey_of U asset = k.
Proof.
  unfold getAssetsByRoom. rewrite run_bucket.
  destruct (discovered (JS.prop_key roomKey) (edges U found)) as [|k0 ids]
    eqn:E; [discriminate|].
  intros H Hin. inversion H; subst l. clear H.
  change (In (k, a)
            (map (fun assetKey =>
                    (assetKey, JS.get (assets (fst run)) assetKey))
                 (k0 :: ids))) in Hin.
  apply in_map_iff in Hin. destruct Hin as (k' & Hk & Hin).
  inversion Hk; subst. clear Hk.
  rewrite <- E in Hin. apply In_discovered in Hin.
  destruct (@edge_asset_scanned _ _ Hin) as (_ & _ & _ & _ & a & Ha).
  rewrite Ha. rewrite PassFacts.main_assets in Ha.
  apply (JSFacts.get_fold_set_Some
           (fun ma : string * Element => assetKey_of U (snd ma))
           (fun ma : string * Element => snd ma)) in Ha.
  destruct Ha as [Ha|([m asset] & Hm & Hkm & Hv)]; [discriminate|].
  simpl in Hkm, Hv. subst a. exists m, asset. auto.
Qed.


Lemma for_each_ok (X : Type) (body : X -> list string * option JS.error)
    (l : list X) :
  snd (for_each body l) = None <-> forall x, In x l -> snd (body x) = None.
Proof.
  induction l as [|x l IH]; simpl.
  - split; [intros _ y [] | reflexivity].
  - destruct (body x) as [out [e|]] eqn:E; simpl.
    + split; [discriminate|]. intros H.
      specialize (H x (or_introl eq_refl)). rewrite E in H. discriminate.
    + rewrite IH. split.
      * intros H y [<-|Hy]; [now rewrite E | auto].
      * intros H y Hy. apply H. now right.
Qed.

Lemma name_of_ok (element : option Element) (indent : string) :
  snd (name_of U element indent) = None <-> element <> None.
Proof. destruct element; simpl; split; congruence. Qed.

Lemma named_then_ok (element : option Element) (indent : string)
    (inner : list string * option JS.error) :
  snd (match name_of U element indent with
       | (out, Some e) => (out, Some e)
       | (out, None) => (out ++ fst inner, snd inner)
       end) = None <->
  element <> None /\ snd inner = None.
Proof.
  destruct element; simpl; split.
  - intros H. split; [discriminate | exact H].
  - tauto.
  - discriminate.
  - intros [H _]. congruence.
Qed.

Lemma list_assets_ok (d : Data) (roomKey : string) :
  snd (list_assets U d roomKey) = None <->
  exists l,
    getAssetsByRoom d (Some roomKey) = JS.Ok l /\
    forall ka, In ka l -> snd ka <> None.
Proof.
  unfold list_assets.
  destruct (getAssetsByRoom d (Some roomKey)) as [l|e]; simpl.
  - rewrite for_each_ok. split.
    + intros H. exists l. split; [reflexivity|].
      intros ka Hka. now apply (name_of_ok (snd ka) "    "), H.
    + intros (l' & E & H) ka Hka. inversion E; subst l'.
      now apply name_of_ok, H.
  - split; [discriminate | intros (l & E & _); discriminate].
Qed.

Lemma yielded_room_defined (d : Data) (levelKey : JS.value) (k : string)
    (r : option Element) :
  In (k, r) (getRoomsByLevel d levelKey) ->
  r <> None /\ In k (JS.keys (rooms d)).
Proof.
  intros H. apply getRoomsByLevel_In in H. destruct H as (Hk & _ & ->).
  split; [|exact Hk]. intros E. now apply JSFacts.get_None in E.
Qed.

Lemma yielded_level_defined (d : Data) (k : string) (l : option Element) :
  In (k, l) (getLevels d) -> l <> None.
Proof.
  unfold getLevels. intros H. apply in_map_iff in H.
  destruct H as (k' & E & Hk). inversion E; subst.
  intros E'. now apply JSFacts.get_None in E'.
Qed.

Lemma run_bucket_assets_defined (roomKey : string) (ids : list string) :
  JS.get (roomAssetsMap (fst run)) roomKey = Some ids ->
  forall ka,
    In ka (map (fun assetKey =>
                  (assetKey, JS.get (assets (fst run)) assetKey)) ids) ->
    snd ka <> None.
Proof.
  rewrite run_bucket.
  destruct (discovered roomKey (edges U found)) as [|k0 l] eqn:E;
    [discriminate|].
  intros H. inversion H; subst ids. clear H. intros ka Hka.
  apply in_map_iff in Hka. destruct Hka as (k & <- & Hin).
  rewrite <- E in Hin. apply In_discovered in Hin.
  destruct (@edge_asset_scanned _ _ Hin) as (_ & _ & _ & _ & a & Ha).
  simpl. rewrite Ha. discriminate.
Qed.

(** X11. The traversal of STEP 7 at the end of a run ends without an
    error exactly when every room whose recorded level is one of the
    levels in [data.levels] has a bucket in [data.roomAssetsMap], that
    is, was referred to by some scanned asset; the exit code is [0] in
    that case and [1] otherwise. *)
Theorem run_traversal_succeeds_iff :
  (snd (listing U (fst run)) = None <->
   forall levelKey roomKey,
     In levelKey (JS.keys (levels (fst run))) ->
     JS.get (roomLevelMap (fst run)) roomKey = Some levelKey ->
     In roomKey (JS.keys (roomAssetsMap (fst run)))) /\
  (exit_code U (fst run) = 0 <-> snd (listing U (fst run)) = None).
Proof.
  split.
  - unfold listing.
    match goal with
    | |- snd (match ?fe with (out, e) => _ end) = None <-> _ =>
        transitivity (snd fe = None);
          [destruct fe; reflexivity|]
    end.
    rewrite for_each_ok. split.
    + intros H levelKey roomKey Hl Hr.
      assert (In (levelKey, JS.get (levels (fst run)) levelKey)
                (getLevels (fst run))) as Hin.
      { unfold getLevels. apply in_map_iff. exists levelKey. auto. }
      specialize (H _ Hin). simpl in H. apply named_then_ok in H.
      destruct H as [_ H]. unfold list_rooms in H.
      rewrite for_each_ok in H.
      assert (In (roomKey, JS.get (rooms (fst run)) roomKey)
                (getRoomsByLevel (fst run) (Some levelKey))) as Hy.
      { apply getRoomsByLevel_In. split; [|auto].
        apply JSFacts.get_Some_In in Hr. apply run_roomLevelMap_keys in Hr.
        destruct Hr as (room & Hroom & _ & E).
        apply run_rooms_keys. exists room. auto. }
      specialize (H _ Hy). simpl in H. apply named_then_ok in H.
      destruct H as [_ H]. apply list_assets_ok in H.
      destruct H as (l & Hl' & _). unfold getAssetsByRoom in Hl'.
      simpl JS.prop_key in Hl'.
      destruct (JS.get (roomAssetsMap (fst run)) roomKey) as [ids|] eqn:E;
        [|discriminate].
      exact (JSFacts.get_Some_In _ _ E).
    + intros H [levelKey level] Hl. simpl.
      apply named_then_ok.
      split; [exact (@yielded_level_defined _ _ _ Hl)|].
      assert (In levelKey (JS.keys (levels (fst run)))) as Hlk.
      { unfold getLevels in Hl. apply in_map_iff in Hl.
        destruct Hl as (k' & E & Hk). now inversion E; subst. }
      unfold list_rooms. apply for_each_ok. intros [roomKey room] Hr.
      simpl. destruct (@yielded_room_defined _ _ _ _ Hr) as [Hroom _].
      apply named_then_ok. split; [exact Hroom|].
      apply list_assets_ok. apply getRoomsByLevel_In in Hr.
      destruct Hr as (_ & Hlevel & _).
      specialize (H _ _ Hlk Hlevel).
      unfold getAssetsByRoom. simpl JS.prop_key.
      destruct (JS.get (roomAssetsMap (fst run)) roomKey) as [ids|] eqn:E.
      * eexists. split; [reflexivity|].
        exact (run_bucket_assets_defined _ E).
      * apply JSFacts.get_None in E. contradiction.
  - unfold exit_code. destruct (snd (listing U (fst run))); split;
      congruence || discriminate.
Qed.

(** X12. When every room the scans for rooms return is one that was
    asked for (its full key is the room id of an entry of [modelRooms]),
    STEP 7 finds a bucket for every room it comes to and an asset for
    every asset key: the run ends with exit code [0]. *)
Theorem run_succeeds_when_rooms_were_asked_for :
  (forall room,
     In room fetched_rooms ->
     In (assetKey_of U room)
        (map (fun x => JS.prop_key (roomId x)) todo)) ->
  snd (listing U (fst run)) = None /\ exit_code U (fst run) = 0.
Proof.
  intros Hasked.
  assert (snd (listing U (fst run)) = None) as Hok.
  { unfold listing.
    match goal with
    | |- snd (match ?fe with (out, e) => _ end) = None =>
        assert (snd fe = None) as Hfe; [|now destruct fe]
    end.
    apply for_each_ok. intros [levelKey level] Hl. simpl.
    apply named_then_ok. split; [exact (@yielded_level_defined _ _ _ Hl)|].
    unfold list_rooms. apply for_each_ok. intros [roomKey room] Hr. simpl.
    destruct (@yielded_room_defined _ _ _ _ Hr) as [Hroom Hkey].
    apply named_then_ok. split; [exact Hroom|].
    apply list_assets_ok.
    apply run_rooms_keys in Hkey. destruct Hkey as (x & Hx & ->).
    specialize (Hasked _ Hx). rewrite <- edges_pending in Hasked.
    unfold getAssetsByRoom. simpl JS.prop_key. rewrite run_bucket.
    destruct (discovered (assetKey_of U x) (edges U found)) as [|k0 ids]
      eqn:E.
    - apply discovered_nil in E. contradiction.
    - eexists. split; [reflexivity|]. intros [k a] Hka.
      change (In (k, a)
                (map (fun assetKey =>
                        (assetKey, JS.get (assets (fst run)) assetKey))
                     (k0 :: ids))) in Hka.
      apply in_map_iff in Hka. destruct Hka as (k' & Hk & Hin).
      inversion Hk; subst. clear Hk. rewrite <- E in Hin.
      apply In_discovered in Hin.
      destruct (@edge_asset_scanned _ _ Hin) as (_ & _ & _ & _ & a & Ha).
      simpl. rewrite Ha. discriminate. }
  split; [exact Hok|]. unfold exit_code. now rewrite Hok.
Qed.

(** X13. [data.assets] at the end of a run holds, under a full key, the
    asset scanned last among those with that full key, and nothing under
    a key no scanned asset has: of two assets with one full key, in one
    model or in two, the one scanned first is lost. *)
Theorem assets_hold_last_scanned (k : string) :
  JS.get (assets (fst run)) k =
  option_map snd
    (find (fun ma => String.eqb (assetKey_of U (snd ma)) k) (rev found)).
Proof.
  rewrite PassFacts.main_assets. unfold asset_set.
  rewrite (ObjFacts.get_fold_set_last
             (fun ma : string * Element => assetKey_of U (snd ma))
             (fun ma : string * Element => snd ma)).
  destruct (find (fun ma => String.eqb (assetKey_of U (snd ma)) k)
              (rev found)); reflexivity.
Qed.

(** X14. [data.rooms] holds, under a full key, the room returned last
    among those with that full key; [data.roomLevelMap] holds the level
    of the room returned last among those with that full key that carry
    a level reference.  The two need not be the same room: a room
    returned later without a level takes the place in [data.rooms] and
    keeps the level of the earlier one. *)
Theorem rooms_hold_last_returned (k : string) :
  JS.get (rooms (fst run)) k =
    find (fun room => String.eqb (assetKey_of U room) k)
         (rev fetched_rooms) /\
  JS.get (roomLevelMap (fst run)) k =
    option_map (fun room => toFullKey U (levelRef_of U room))
      (find (fun room => String.eqb (assetKey_of U room) k)
            (rev (filter (fun room => JS.truthy (levelRef_of U room))
                         fetched_rooms))).
Proof.
  split.
  - rewrite PassFacts.main_rooms. unfold room_set.
    rewrite (ObjFacts.get_fold_set_last (assetKey_of U) (fun room => room)).
    destruct (find (fun room => String.eqb (assetKey_of U room) k)
                (rev fetched_rooms)); reflexivity.
  - rewrite PassFacts.main_roomLevelMap, PassFacts.level_link_filter.
    rewrite (ObjFacts.get_fold_set_last (assetKey_of U)
               (fun room => toFullKey U (levelRef_of U room))).
    destruct (find (fun room => String.eqb (assetKey_of U room) k)
                (rev (filter (fun room => JS.truthy (levelRef_of U room))
                        fetched_rooms))); reflexivity.
Qed.

(** X15. Going through STEP 6 a second time, on the [data] the run has
    built and with the same [modelRooms], against the same service,
    leaves [data] as it is. *)
Theorem second_resolution_changes_nothing (tr : list Request) :
  fst (resolve U be
         {| data := fst run; modelRooms := todo; trace := tr |}) =
  fst run.
Proof.
  unfold resolve. simpl data. simpl modelRooms. simpl trace.
  rewrite PassFacts.fold_step_model. simpl fst.
  rewrite PassFacts.main_eq. simpl fst.
  unfold after_models, after_scan. simpl.
  f_equal.
  - apply (ObjFacts.write_all_twice (assetKey_of U) (fun x => x)).
    constructor.
  - apply (ObjFacts.write_all_twice (assetKey_of U) (fun x => x)).
    constructor.
  - rewrite !PassFacts.level_link_filter.
    apply (ObjFacts.write_all_twice (assetKey_of U)
             (fun room => toFullKey U (levelRef_of U room))).
    constructor.
Qed.

(** X16. A bucket of [data.roomAssetsMap] at the end of a run is never
    empty, and an asset key is in the bucket of a room id exactly when
    some scanned asset with that full key has a reference with that room
    id. *)
Theorem buckets_hold_the_referring_assets
    (r : string) (ids : list string) :
  JS.get (roomAssetsMap (fst run)) r = Some ids ->
  ids <> [] /\
  forall k,
    In k ids <->
    exists m asset x,
      In (m, asset) found /\ In x (assetRooms U m asset) /\
      r = JS.prop_key (roomId x) /\ k = assetKey_of U asset.
Proof.
  rewrite run_bucket.
  destruct (discovered r (edges U found)) as [|k0 l] eqn:E; [discriminate|].
  intros H. inversion H; subst ids. clear H.
  split; [discriminate|]. intros k.
  rewrite <- E, In_discovered. apply In_edges.
Qed.

End Extras.

(** ** The further properties on the small service *)

Section ExtraScenarios.

Local Abbreviation model_A := "urn:adsk.dtm:A".
Local Abbreviation model_B := "urn:adsk.dtm:B".

Example isDefaultModel_first_occurrence_only :
  isDefaultModel "urn:adsk.dtt:urn:adsk.dtt:x" "urn:adsk.dtm:urn:adsk.dtt:x"
    = true /\
  isDefaultModel "a.urn:adsk.dtt:x" "a.urn:adsk.dtm:x" = true.
Proof. split; reflexivity. Qed.

(** A service that answers a scan for rooms with a room nobody asked
    for: STEP 7 comes to it under its level, finds no bucket, and the run
    ends with exit code [1]. *)
Example unasked_room_ends_the_run :
  let be :=
    {| twin := fun _ =>
         {| Facility.links := [{| Facility.modelId := model_A |}] |};
       scan := fun urn inputs =>
         match keys inputs with
         | None =>
             [[("k", "a1"); ("n:n", "pump"); ("z:a", "1"); ("l:r", "r1")]]
         | Some [Some "l1"] => [[("k", "l1"); ("n:n", "first floor")]]
         | Some _ => [[("k", "r7"); ("n:n", "attic"); ("l:l", "l1")]]
         end |} in
  listing Demo.utils (fst (main Demo.utils be Demo.facility_urn)) =
    (["facility data list"; "first floor"; "  attic"],
     Some (JS.TypeError "assetKeys is not iterable")) /\
  exit_code Demo.utils (fst (main Demo.utils be Demo.facility_urn)) = 1.
Proof. split; reflexivity. Qed.

Lemma isDefaultModel_without_twin_urn_witness :
  isDefaultModel "YOUR_FACILITY_URN" "YOUR_FACILITY_URN" = true <->
  "YOUR_FACILITY_URN" = "YOUR_FACILITY_URN".
Proof.
  apply (@isDefaultModel_without_twin_urn "YOUR_FACILITY_URN"
           "YOUR_FACILITY_URN").
  reflexivity.
Defined.

Lemma same_model_room_fetched_from_asset_model_witness :
  exists ids,
    In (Some "F.r2") ids /\
    In (TandemClient.getElements_request model_A ids
          (room_families Demo.utils))
       (snd (main Demo.utils Demo.dangling Demo.facility_urn)).
Proof.
  apply (@same_model_room_fetched_from_asset_model Demo.utils Demo.dangling
           Demo.facility_urn {| Facility.modelId := model_A |}
           [("k", "a1"); ("n:n", "pump"); ("z:a", "1"); ("l:r", "r1,r2")]
           "r2").
  - simpl. auto.
  - reflexivity.
  - simpl. auto.
  - reflexivity.
  - simpl. auto.
Defined.

Lemma no_request_with_empty_keys_witness :
  Some [Some "F.r1"] <> Some (@nil JS.value).
Proof.
  apply (@no_request_with_empty_keys Demo.utils Demo.two_models
           Demo.facility_urn model_B
           {| families := ["n"; "l"]; keys := Some [Some "F.r1"] |}).
  simpl. auto.
Defined.

Lemma assets_of_room_are_defined_witness :
  exists m asset,
    Some [("k", "a1"); ("n:n", "pump"); ("z:a", "1"); ("l:r", "r1,r2")] =
      Some asset /\
    In (m, asset)
       (scanned Demo.utils Demo.dangling Demo.facility_urn
          (TandemClient.getFacility Demo.dangling Demo.facility_urn)) /\
    assetKey_of Demo.utils asset = "F.a1".
Proof.
  apply (@assets_of_room_are_defined Demo.utils Demo.dangling
           Demo.facility_urn (Some "F.r2")
           [("F.a1",
             Some [("k", "a1"); ("n:n", "pump"); ("z:a", "1");
                   ("l:r", "r1,r2")])]).
  - reflexivity.
  - simpl. auto.
Defined.

Lemma run_succeeds_when_rooms_were_asked_for_witness :
  snd (listing Demo.utils
         (fst (main Demo.utils Demo.two_models Demo.facility_urn))) = None
  /\
  exit_code Demo.utils
    (fst (main Demo.utils Demo.two_models Demo.facility_urn)) = 0.
Proof.
  apply (@run_succeeds_when_rooms_were_asked_for Demo.utils Demo.two_models
           Demo.facility_urn).
  intros room H. vm_compute in H.
  destruct H as [H|[H|[]]]; subst room; vm_compute; auto.
Defined.

Lemma buckets_hold_the_referring_assets_witness :
  ["F.a1"; "F.a1"] <> [] /\
  forall k,
    In k ["F.a1"; "F.a1"] <->
    exists m asset x,
      In (m, asset)
         (scanned Demo.utils Demo.two_models Demo.facility_urn
            (TandemClient.getFacility Demo.two_models Demo.facility_urn))
      /\ In x (assetRooms Demo.utils m asset) /\
      "F.r1" = JS.prop_key (roomId x) /\
      k = assetKey_of Demo.utils asset.
Proof.
  apply (@buckets_hold_the_referring_assets Demo.utils Demo.two_models
           Demo.facility_urn "F.r1" ["F.a1"; "F.a1"]).
  reflexivity.
Defined.

End ExtraScenarios.
